(** * BlueBrain Search: embedding computation and the mining widget

    A shallow embedding of [bluesearch/embedding_models.py] and
    [bbsearch/widgets/mining_widget.py].  Python integers are [Z], arrays are
    shaped flat buffers, exceptions are values of [exn] carried by [result],
    and calls that leave the process (HTTP, worker processes, array files)
    are recorded as events. *)

From Stdlib Require Import ZArith Lia.
From stdpp Require Import base tactics option list numbers strings pretty gmap.

(** ** Python runtime *)

Module Py.

(** The exceptions raised by the modelled code, with their messages;
    [OtherError] is an exception of any other class, as a library may
    raise, with the name of its class. *)
Inductive exn : Type :=
| ValueError (msg : string)
| TypeError (msg : string)
| ZeroDivisionError (msg : string)
| KeyError (key : string)
| IndexError (msg : string)
| FileNotFoundError (msg : string)
| FileExistsError (msg : string)
| OtherError (class msg : string).

Inductive result (A : Type) : Type :=
| Ok (a : A)
| Raise (e : exn).

Arguments Ok {A} a.
Arguments Raise {A} e.

#[global] Instance result_ret : MRet result := fun A a => Ok a.

#[global] Instance result_bind : MBind result := fun A B f m =>
  match m with
  | Ok a => f a
  | Raise e => Raise e
  end.

Definition is_ok {A} (r : result A) : bool :=
  match r with Ok _ => true | Raise _ => false end.

(** A computation that acts on the outside world: the events it caused, in
    order, and how it ended.  An exception stops the computation; the events
    before it stay. *)
Record Eff (Ev A : Type) : Type := MkEff {
  trace : list Ev;
  outcome : result A
}.

Arguments MkEff {Ev A} trace outcome.
Arguments trace {Ev A} e.
Arguments outcome {Ev A} e.

#[global] Instance eff_ret {Ev} : MRet (Eff Ev) := fun A a => MkEff [] (Ok a).

#[global] Instance eff_bind {Ev} : MBind (Eff Ev) := fun A B f m =>
  match outcome m with
  | Ok a => MkEff (trace m ++ trace (f a)) (outcome (f a))
  | Raise e => MkEff (trace m) (Raise e)
  end.

Definition emit {Ev} (ev : Ev) : Eff Ev unit := MkEff [ev] (Ok tt).

Definition lift {Ev A} (r : result A) : Eff Ev A := MkEff [] r.

Definition raise {Ev A} (e : exn) : Eff Ev A := MkEff [] (Raise e).

(** [str(x)] for [x] a string or [None]. *)
Definition str_of (x : option string) : string := default "None" x.

(** [range(k)]: the integers [0, 1, ..., k-1], empty when [k <= 0]. *)
Definition range (k : Z) : list Z :=
  Z.of_nat <$> seq 0 (Z.to_nat k).

(** One bound of a slice over a sequence of length [n]: a negative bound
    counts from the end, and both are clipped to [0..n]. *)
Definition slice_bound (n i : Z) : Z :=
  if (i <? 0)%Z then Z.max (i + n) 0 else Z.min i n.

(** [l[start:stop]] *)
Definition slice {A} (l : list A) (start stop : Z) : list A :=
  let n := Z.of_nat (length l) in
  let a := slice_bound n start in
  let b := slice_bound n stop in
  take (Z.to_nat (b - a)) (drop (Z.to_nat a) l).

(** [n // d] on integers. *)
Definition floordiv (n d : Z) : result Z :=
  if (d =? 0)%Z then Raise (ZeroDivisionError "integer division or modulo by zero")
  else Ok (n / d)%Z.

(** [int(n / d)]: true division followed by truncation towards zero.  The
    quotient is taken exactly; the float rounding of [n / d] is not
    modelled. *)
Definition int_truediv (n d : Z) : result Z :=
  if (d =? 0)%Z then Raise (ZeroDivisionError "division by zero")
  else Ok (n ÷ d)%Z.

End Py.

Export Py.

(** ** numpy arrays *)

Module Np.

Section Arrays.
Context {E : Type}.

(** An n-dimensional array: its shape and its elements in row-major
    order. *)
Record ndarray : Type := NdArray {
  shape : list nat;
  data : list E
}.

(** [np.array(rows)] for a list of equally long 1-D rows. *)
Definition array_of_rows (rows : list (list E)) : ndarray :=
  match rows with
  | [] => NdArray [0] []
  | r :: _ => NdArray [length rows; length r] (concat rows)
  end.

(** [np.concatenate(arrays, axis=0)] *)
Definition concatenate (arrays : list ndarray) : result ndarray :=
  match arrays with
  | [] => Raise (ValueError "need at least one array to concatenate")
  | a :: rest =>
    match shape a with
    | [] => Raise (ValueError "zero-dimensional arrays cannot be concatenated")
    | _ :: inner =>
      if forallb (fun b => bool_decide (tail (shape b) = inner ∧ shape b ≠ [])) rest
      then Ok (NdArray (sum_list ((fun b => hd 0 (shape b)) <$> arrays) :: inner)
                       (concat (data <$> arrays)))
      else Raise (ValueError "all the input array dimensions except for the concatenation axis must match exactly")
    end
  end.

(** [a.squeeze()]: every axis of length one is dropped. *)
Definition squeeze (a : ndarray) : ndarray :=
  NdArray (filter (fun n => n ≠ 1) (shape a)) (data a).

End Arrays.

Arguments ndarray E : clear implicits.

Section Split.
Context {A : Type}.

(** The section lengths [np.array_split] uses for [Ntotal] elements and
    [Nsections] sections: [Ntotal % Nsections] sections of
    [Ntotal // Nsections + 1] elements, then the rest with
    [Ntotal // Nsections]. *)
Definition section_sizes (Ntotal Nsections : nat) : list nat :=
  let Neach_section := Ntotal `div` Nsections in
  let extras := Ntotal `mod` Nsections in
  replicate extras (S Neach_section) ++ replicate (Nsections - extras) Neach_section.

Fixpoint split_at_sizes (sizes : list nat) (ary : list A) : list (list A) :=
  match sizes with
  | [] => []
  | n :: sizes' => take n ary :: split_at_sizes sizes' (drop n ary)
  end.

(** [np.array_split(ary, Nsections)] on a 1-D array, for an integer number
    of sections. *)
Definition array_split (ary : list A) (Nsections : Z) : result (list (list A)) :=
  if (Nsections <=? 0)%Z
  then Raise (ValueError "number sections must be larger than 0.")
  else Ok (split_at_sizes (section_sizes (length ary) (Z.to_nat Nsections)) ary).

End Split.

End Np.

Export Np.

(** ** Embedding models *)

Module EmbeddingModels.

(** A row of the [sentences] table. *)
Record Sentence : Type := MkSentence {
  sentence_id : Z;
  text : string
}.

(** The [EmbeddingModel] interface as [compute_database_embeddings] uses it:
    [E] is the type of the array elements, [P] what [preprocess_many]
    hands to [embed_many]. *)
Class EmbeddingModel (E P : Type) : Type := {
  dim : nat;
  preprocess_many : list string → P;
  embed_many : P → ndarray E
}.

(** The default methods of the abstract base class: [preprocess_many] maps
    [preprocess], [embed_many] stacks the rows [embed] returns. *)
Definition default_model {E P1 : Type} (d : nat)
    (preprocess : string → P1) (embed : P1 → list E) : EmbeddingModel E (list P1) := {|
  dim := d;
  preprocess_many raw_sentences := preprocess <$> raw_sentences;
  embed_many preprocessed_sentences := array_of_rows (embed <$> preprocessed_sentences)
|}.

Section ComputeDatabaseEmbeddings.
Context {E P : Type} {Connection : Type}.

(** [bluesearch.sql.retrieve_sentences_from_sentence_ids]: the table of the
    sentences the store holds for [indices], in the order the store returns
    them. *)
Variable retrieve_sentences_from_sentence_ids : list Z → Connection → list Sentence.

Context (model : EmbeddingModel E P).

(** The embedding of one batch of rows. *)
Definition embed_batch (batch : list Sentence) : ndarray E :=
  embed_many (preprocess_many (text <$> batch)).

(** One iteration of the loop over [batch_ix]. *)
Definition batch_step (sentences : list Sentence) (batch_size : Z)
    (acc : list (ndarray E) * list Z) (batch_ix : Z) : list (ndarray E) * list Z :=
  let n_sentences := Z.of_nat (length sentences) in
  let start_ix := (batch_ix * batch_size)%Z in
  let end_ix := Z.min ((batch_ix + 1) * batch_size) n_sentences in
  if (start_ix =? end_ix)%Z then acc
  else
    let rows := slice sentences start_ix end_ix in
    let sentences_text := text <$> rows in
    let sentences_id := sentence_id <$> rows in
    let preprocessed_sentences := preprocess_many sentences_text in
    let embeddings := embed_many preprocessed_sentences in
    (acc.1 ++ [embeddings], acc.2 ++ sentences_id).

(** The loop: the per-batch arrays [all_embeddings] and the ids [all_ids]
    it leaves behind. *)
Definition embedding_loop (sentences : list Sentence) (batch_size : Z)
    : result (list (ndarray E) * list Z) :=
  let n_sentences := Z.of_nat (length sentences) in
  q ← floordiv n_sentences batch_size;
  Ok (foldl (batch_step sentences batch_size) ([], []) (range (q + 1))).

Definition compute_database_embeddings (connection : Connection)
    (indices : list Z) (batch_size : Z) : result (ndarray E * list Z) :=
  let sentences := retrieve_sentences_from_sentence_ids indices connection in
  '(all_embeddings, all_ids) ← embedding_loop sentences batch_size;
  final_embeddings ← concatenate all_embeddings;
  let retrieved_indices := all_ids in
  Ok (final_embeddings, retrieved_indices).

(** Batch number [i] of a table cut every [batch_size] rows. *)
Definition batch_at {A} (rows : list A) (batch_size i : nat) : list A :=
  take batch_size (drop (i * batch_size) rows).

(** The batches the documentation describes: consecutive runs of
    [batch_size] rows, the last one shorter when [batch_size] does not divide
    the number of rows. *)
Definition consecutive_batches {A} (batch_size : nat) (rows : list A) : list (list A) :=
  let n := length rows in
  let n_batches := n `div` batch_size + (if decide (n `mod` batch_size = 0) then 0 else 1) in
  batch_at rows batch_size <$> seq 0 n_batches.

(** What the documentation of [embed_many] promises: one row of [dim]
    numbers for each sentence handed in. *)
Definition embeds_rows (model : EmbeddingModel E P) : Prop :=
  ∀ texts : list string, texts ≠ [] →
    shape (embed_many (preprocess_many texts)) = [length texts; dim].

End ComputeDatabaseEmbeddings.

(** *** Sentence BioBERT *)

Section SentenceBioBERT.
Context {E P : Type}.

(** The pretrained parts of [SBioBERT] are not modelled: [tokenizer] stands
    for the call of the tokenizer in [preprocess], [sentence_embeddings] for
    the network followed by [masked_mean]. *)
Variable tokenizer : list string → P.
Variable sentence_embeddings : P → ndarray E.

(** [SBioBERT.embed] *)
Definition SBioBERT_embed (preprocessed_sentence : P) : ndarray E :=
  squeeze (sentence_embeddings preprocessed_sentence).

(** [SBioBERT]: [preprocess_many] is [preprocess], [embed_many] is
    [embed]. *)
Definition SBioBERT_model : EmbeddingModel E P := {|
  dim := 768;
  preprocess_many raw_sentences := tokenizer raw_sentences;
  embed_many preprocessed_sentences := SBioBERT_embed preprocessed_sentences
|}.

(** What [masked_mean] documents: one row of 768 numbers for each sentence
    handed to the tokenizer. *)
Definition pools_rows : Prop :=
  ∀ texts : list string, shape (sentence_embeddings (tokenizer texts)) = [length texts; 768].

End SentenceBioBERT.

(** *** The model factory *)

(** The concrete models, each with what its constructor keeps. *)
Inductive Model : Type :=
| SentTransformer (model_name_or_path : string) (device : option string)
| SBioBERT (device : string)
| Sent2VecModel (checkpoint_path : string)
| BSV (checkpoint_path : string)
| SklearnVectorizer (checkpoint_path : string).

(** What the constructors ask of the machine and of the libraries behind
    the models, none of which is part of the sources: [is_file p] is
    [pathlib.Path(p).is_file()], [path_text p] is [str(pathlib.Path(p))],
    the path as [pathlib] writes it, and [load instance] is the outcome of
    the library calls the constructor of [instance] makes (reading weights,
    tokenizers, stop words or a pickle): they return, or they raise. *)
Record Libraries : Type := MkLibraries {
  is_file : string → bool;
  path_text : string → string;
  load : Model → result unit
}.

Section Factory.

Variable libraries : Libraries.

(** [pathlib.Path(p)], kept as its text: [None] is refused. *)
Definition pathlib_Path (p : option string) : result string :=
  match p with
  | Some s => Ok (path_text libraries s)
  | None => Raise (TypeError "expected str, bytes or os.PathLike object, not NoneType")
  end.

Definition SentTransformer_init (model_name_or_path device : option string) : result Model :=
  let instance := SentTransformer (str_of model_name_or_path) device in
  _ ← load libraries instance;
  Ok instance.

Definition SBioBERT_init (device : option string) : result Model :=
  let available_device :=
    match device with
    | Some d => if decide (d = "") then "cpu" else d
    | None => "cpu"
    end in
  let instance := SBioBERT available_device in
  _ ← load libraries instance;
  Ok instance.

Definition Sent2VecModel_init (checkpoint_path : option string) : result Model :=
  p ← pathlib_Path checkpoint_path;
  if is_file libraries p then
    _ ← load libraries (Sent2VecModel p);
    Ok (Sent2VecModel p)
  else Raise (FileNotFoundError ("The checkpoint file " +:+ p +:+ " was not found.")).

Definition BSV_init (checkpoint_path : option string) : result Model :=
  p ← pathlib_Path checkpoint_path;
  if is_file libraries p then
    _ ← load libraries (BSV p);
    Ok (BSV p)
  else Raise (FileNotFoundError ("The file " +:+ p +:+ " was not found.")).

Definition SklearnVectorizer_init (checkpoint_path : option string) : result Model :=
  p ← pathlib_Path checkpoint_path;
  _ ← load libraries (SklearnVectorizer p);
  Ok (SklearnVectorizer p).

(** The [configs] dictionary: each recognised name with the constructor
    call it stands for. *)
Definition configs (checkpoint_path device : option string)
    : gmap string (unit → result Model) :=
  list_to_map [
    ("SentTransformer", fun _ => SentTransformer_init checkpoint_path device);
    ("BioBERT NLI+STS",
       fun _ => SentTransformer_init (Some "clagator/biobert_v1.1_pubmed_nli_sts") device);
    ("SBioBERT", fun _ => SBioBERT_init device);
    ("SBERT", fun _ => SentTransformer_init (Some "bert-base-nli-mean-tokens") device);
    ("Sent2VecModel", fun _ => Sent2VecModel_init checkpoint_path);
    ("BSV", fun _ => BSV_init checkpoint_path);
    ("SklearnVectorizer", fun _ => SklearnVectorizer_init checkpoint_path)
  ].

Definition get_embedding_model (model_name_or_class : string)
    (checkpoint_path device : option string) : result Model :=
  match configs checkpoint_path device !! model_name_or_class with
  | None => Raise (ValueError ("Unknown model name or class: " +:+ model_name_or_class))
  | Some construct => construct tt
  end.

End Factory.


(** *** The multiprocessing embedder *)

(** A [pathlib.Path] to a file: the folder it is in, and its name split
    into stem and suffix. *)
Record Path : Type := MkPath {
  parent : list string;
  stem : string;
  suffix : string
}.

Record MPEmbedder : Type := MkMPEmbedder {
  database_url : string;
  model_name_or_class : string;
  indices : list Z;
  h5_path_output : Path;
  batch_size_inference : Z;
  batch_size_transfer : Z;
  n_processes : Z;
  checkpoint_path : option string;
  delete_temp : bool;
  temp_folder : option (list string);
  h5_dataset_name : string;
  gpus : option (list (option Z))
}.

(** The keyword arguments a worker process is started with. *)
Record WorkerKwargs : Type := MkWorkerKwargs {
  w_database_url : string;
  w_model_name_or_class : string;
  w_indices : list Z;
  w_temp_h5_path : Path;
  w_batch_size : Z;
  w_checkpoint_path : option string;
  w_gpu : option Z;
  w_h5_dataset_name : string
}.

(** What [do_embedding] does to the outside world. *)
Inductive event : Type :=
| Mkdir (folder : list string)
| ProcessStart (name : string) (kwargs : WorkerKwargs)
| ProcessJoin (name : string)
| H5Concatenate (output : Path) (dataset : string) (inputs : list Path)
    (delete_inputs : bool) (batch_size : Z).

(** [MPEmbedder.__init__] *)
Definition MPEmbedder_init
    (database_url model_name_or_class : string) (indices : list Z) (h5_path_output : Path)
    (batch_size_inference batch_size_transfer n_processes : Z)
    (checkpoint_path : option string) (gpus : option (list (option Z)))
    (delete_temp : bool) (temp_folder : option (list string))
    (h5_dataset_name : option string) : Eff event MPEmbedder :=
  let name := default model_name_or_class h5_dataset_name in
  match gpus with
  | Some g =>
    if bool_decide (Z.of_nat (length g) ≠ n_processes)
    then raise (ValueError "One needs to specify the GPU for each process separately")
    else mret (MkMPEmbedder database_url model_name_or_class indices h5_path_output
                 batch_size_inference batch_size_transfer n_processes checkpoint_path
                 delete_temp temp_folder name gpus)
  | None =>
    mret (MkMPEmbedder database_url model_name_or_class indices h5_path_output
            batch_size_inference batch_size_transfer n_processes checkpoint_path
            delete_temp temp_folder name gpus)
  end.

(** What the check of [__init__] leaves true of an embedder: a GPU list,
    when there is one, has one entry per process. *)
Definition gpus_match (self : MPEmbedder) : Prop :=
  match gpus self with
  | Some g => Z.of_nat (length g) = n_processes self
  | None => True
  end.

(** [output_folder / f"{self.h5_path_output.stem}_temp{process_ix}.h5"] *)
Definition temp_h5_path (output_folder : list string) (output : Path) (process_ix : nat) : Path :=
  MkPath output_folder (stem output +:+ "_temp" +:+ pretty process_ix) ".h5".

Definition worker_name (process_ix : nat) : string := "worker_" +:+ pretty process_ix.

(** [self.gpus[process_ix]], or [None] when no GPUs were given. *)
Definition gpu_for (gpus : option (list (option Z))) (process_ix : nat) : result (option Z) :=
  match gpus with
  | None => Ok None
  | Some g =>
    match g !! process_ix with
    | Some gpu => Ok gpu
    | None => Raise (IndexError "list index out of range")
    end
  end.

(** The chunks [do_embedding] hands to its workers. *)
Definition embedding_splits (indices : list Z) (n_processes : Z) : result (list (list Z)) :=
  chunks ← array_split indices n_processes;
  Ok (filter (fun x => 0 < length x) chunks).

(** The loop over [enumerate(splits)]: starts one worker per chunk and
    returns the names of the processes and their temporary files, both in
    the order of the chunks. *)
Fixpoint start_workers (self : MPEmbedder) (output_folder : list string)
    (process_ix : nat) (splits : list (list Z)) : Eff event (list string * list Path) :=
  match splits with
  | [] => mret ([], [])
  | split :: splits' =>
    let temp := temp_h5_path output_folder (h5_path_output self) process_ix in
    gpu ← lift (gpu_for (gpus self) process_ix);
    _ ← emit (ProcessStart (worker_name process_ix)
                (MkWorkerKwargs (database_url self) (model_name_or_class self) split temp
                   (batch_size_inference self) (checkpoint_path self) gpu
                   (h5_dataset_name self)));
    rest ← start_workers self output_folder (S process_ix) splits';
    mret (worker_name process_ix :: rest.1, temp :: rest.2)
  end.

Fixpoint join_all (worker_processes : list string) : Eff event unit :=
  match worker_processes with
  | [] => mret tt
  | process :: rest => _ ← emit (ProcessJoin process); join_all rest
  end.

(** [MPEmbedder.do_embedding].  [H5.concatenate] is not part of the
    sources: the call is recorded, and what it then returns or raises is
    what [H5_concatenate] says. *)
Definition do_embedding
    (H5_concatenate : Path → string → list Path → bool → Z → result unit)
    (self : MPEmbedder) : Eff event unit :=
  let output_folder := default (parent (h5_path_output self)) (temp_folder self) in
  _ ← emit (Mkdir (parent (h5_path_output self)));
  _ ← emit (Mkdir output_folder);
  splits ← lift (embedding_splits (indices self) (n_processes self));
  started ← start_workers self output_folder 0 splits;
  _ ← join_all started.1;
  _ ← emit (H5Concatenate (h5_path_output self) (h5_dataset_name self) started.2
              (delete_temp self) (batch_size_transfer self));
  lift (H5_concatenate (h5_path_output self) (h5_dataset_name self) started.2
          (delete_temp self) (batch_size_transfer self)).

(** The positions [run_embedding_worker] cuts its chunk of [n_indices]
    sentences into: [batch_size] is first capped at the chunk size, then
    [np.arange(n_indices)] is split into [n_indices / batch_size] sections
    and the empty ones are dropped. *)
Definition worker_splits (n_indices : nat) (batch_size : Z) : result (list (list nat)) :=
  let batch_size := Z.min (Z.of_nat n_indices) batch_size in
  sections ← int_truediv (Z.of_nat n_indices) batch_size;
  splits ← array_split (seq 0 n_indices) sections;
  Ok (filter (fun split => 0 < length split) splits).

(** [indices[pos_indices]] *)
Definition take_positions (indices : list Z) (pos_indices : list nat) : result (list Z) :=
  match mapM (fun p => indices !! p) pos_indices with
  | Some batch_indices => Ok batch_indices
  | None => Raise (IndexError "index is out of bounds")
  end.

(** [indices[0]], which the worker logs before anything else. *)
Definition first_index (indices : list Z) : result Z :=
  match indices with
  | first :: _ => Ok first
  | [] => Raise (IndexError "index 0 is out of bounds for axis 0 with size 0")
  end.

(** The batches of sentence ids [run_embedding_worker] embeds, in order,
    once its model is loaded and its temporary file created: each is handed
    to [compute_database_embeddings] as one batch. *)
Definition worker_batches (indices : list Z) (batch_size : Z) : result (list (list Z)) :=
  _ ← first_index indices;
  splits ← worker_splits (length indices) batch_size;
  mapM (take_positions indices) splits.

(** [str(path)] *)
Definition Path_str (p : Path) : string :=
  foldr (fun folder rest => folder +:+ "/" +:+ rest) (stem p +:+ suffix p) (parent p).

Section Worker.
Context {E P Connection : Type}.

(** What a worker cannot do by itself: the store and its query
    ([sqlalchemy.create_engine], [retrieve_sentences_from_sentence_ids]),
    the libraries and files behind the models, whether its temporary file
    is there ([Path.exists]), and what a loaded model computes. *)
Variable retrieve_sentences_from_sentence_ids : list Z → Connection → list Sentence.
Variable create_engine : string → Connection.
Variable libraries : Libraries.
Variable path_exists : Path → bool.
Variable loaded : Model → EmbeddingModel E P.

(** What a worker does to the outside world: it sets an environment
    variable, creates datasets in its temporary file and writes rows of
    embeddings and rows of ids at given positions. *)
Inductive worker_event : Type :=
| SetEnv (name value : string)
| H5Create (path : Path) (dataset : string) (shape : list nat) (dtype : option string)
| H5Write (path : Path) (dataset : string) (values : ndarray E) (positions : list nat)
| H5WriteIndices (path : Path) (dataset : string) (values : ndarray Z) (positions : list nat).

(** The loop over [enumerate(splits)] of [run_embedding_worker]. *)
Fixpoint embed_splits (model : EmbeddingModel E P) (engine : Connection)
    (kwargs : WorkerKwargs) (splits : list (list nat)) : Eff worker_event unit :=
  match splits with
  | [] => mret tt
  | pos_indices :: splits' =>
    batch_indices ← lift (take_positions (w_indices kwargs) pos_indices);
    computed ← lift (compute_database_embeddings retrieve_sentences_from_sentence_ids
                       model engine batch_indices (Z.of_nat (length batch_indices)));
    if bool_decide (computed.2 ≠ batch_indices)
    then raise (ValueError "The retrieved and requested indices do not agree.")
    else
      _ ← emit (H5Write (w_temp_h5_path kwargs) (w_h5_dataset_name kwargs)
                  computed.1 pos_indices);
      _ ← emit (H5WriteIndices (w_temp_h5_path kwargs)
                  (w_h5_dataset_name kwargs +:+ "_indices")
                  (NdArray [length batch_indices; 1] batch_indices) pos_indices);
      embed_splits model engine kwargs splits'
  end.

(** [MPEmbedder.run_embedding_worker] *)
Definition run_embedding_worker (kwargs : WorkerKwargs) : Eff worker_event unit :=
  _ ← lift (first_index (w_indices kwargs));
  _ ← match w_gpu kwargs with
      | Some gpu => emit (SetEnv "CUDA_VISIBLE_DEVICES" (pretty gpu))
      | None => mret tt
      end;
  model ← lift (get_embedding_model libraries (w_model_name_or_class kwargs)
                  (w_checkpoint_path kwargs)
                  (Some (if w_gpu kwargs is None then "cpu" else "cuda")));
  let engine := create_engine (w_database_url kwargs) in
  if path_exists (w_temp_h5_path kwargs)
  then raise (FileExistsError (Path_str (w_temp_h5_path kwargs) +:+ " already exists"))
  else
    let n_indices := length (w_indices kwargs) in
    _ ← emit (H5Create (w_temp_h5_path kwargs) (w_h5_dataset_name kwargs)
                [n_indices; dim (EmbeddingModel := loaded model)] None);
    _ ← emit (H5Create (w_temp_h5_path kwargs) (w_h5_dataset_name kwargs +:+ "_indices")
                [n_indices; 1] (Some "int32"));
    splits ← lift (worker_splits n_indices (w_batch_size kwargs));
    embed_splits (loaded model) engine kwargs splits.

End Worker.

Arguments worker_event E : clear implicits.

(** The positions of the rows a worker wrote embeddings to, write by
    write. *)
Definition written_positions {E} (events : list (worker_event E)) : list (list nat) :=
  omap (fun ev => match ev with H5Write _ _ _ positions => Some positions | _ => None end)
    events.



(** The events of a worker that create or change a file. *)
Definition touches_file {E} (ev : worker_event E) : bool :=
  match ev with
  | SetEnv _ _ => false
  | _ => true
  end.

(** The arguments of the workers a run of [do_embedding] started, in the
    order it started them. *)
Definition started_workers (events : list event) : list WorkerKwargs :=
  omap (fun ev => match ev with ProcessStart _ kwargs => Some kwargs | _ => None end) events.


End EmbeddingModels.

(** ** The mining widget *)

Module MiningWidget.

(** The Python values [textmining_pipeline] can be handed, and the JSON
    bodies it sends. *)
#[warnings="-register-all"]
Inductive pyobj : Type :=
| PyNone
| PyBool (b : bool)
| PyInt (z : Z)
| PyStr (s : string)
| PyTuple (items : list pyobj)
| PyList (items : list pyobj)
| PyDict (items : list (string * pyobj)).

(** A table ([pandas.DataFrame]) holding text cells. *)
Record DataFrame : Type := MkDataFrame {
  columns : list string;
  rows : list (list string)
}.

#[global] Instance DataFrame_eq_dec : EqDecision DataFrame.
Proof. solve_decision. Defined.

(** [pd.DataFrame()] *)
Definition empty_DataFrame : DataFrame := MkDataFrame [] [].

(** What the server answers: the headers as sent, and the body. *)
Record Response : Type := MkResponse {
  headers : list (string * string);
  text : string
}.

Definition ascii_lower (c : Ascii.ascii) : Ascii.ascii :=
  let n := Ascii.nat_of_ascii c in
  if bool_decide (65 ≤ n ≤ 90) then Ascii.ascii_of_nat (n + 32) else c.

Fixpoint lower (s : string) : string :=
  match s with
  | EmptyString => EmptyString
  | String c s' => String (ascii_lower c) (lower s')
  end.

(** [response.headers[key]]: the header names are compared without regard to
    case, and a missing header is a [KeyError] of the lower-cased key. *)
Definition header (h : list (string * string)) (key : string) : result string :=
  match list_find (fun kv => lower kv.1 = lower key) h with
  | Some (_, (_, value)) => Ok value
  | None => Raise (KeyError (lower key))
  end.

(** What the widget does to the outside world: requests to the server,
    lines printed, and what happens to its output area, the traceback of
    an exception shown there included. *)
Inductive event : Type :=
| HttpPost (url : string) (json : pyobj)
| Print (line : string)
| PrintHeaders (h : list (string * string))
| ClearOutput
| Display (table : option DataFrame)
| ShowTraceback (e : exn).

(** [with self.widgets['out']: body].  The output widget belongs to
    [ipywidgets], which is not part of the sources.  When the block raises,
    the widget shows the traceback and suppresses the exception if the code
    runs under IPython, and lets the exception through otherwise; whether
    IPython is there is [in_ipython].  The result is [None] when an
    exception was suppressed. *)
Definition with_output {Ev A} (show : exn → Ev) (in_ipython : bool) (body : Eff Ev A)
    : Eff Ev (option A) :=
  match outcome body with
  | Ok a => MkEff (trace body) (Ok (Some a))
  | Raise e =>
    if in_ipython then MkEff (trace body ++ [show e]) (Ok None)
    else MkEff (trace body) (Raise e)
  end.

Section Pipeline.

(** The mining server: its answer to a POST of a JSON body to a URL. *)
Variable server : string → pyobj → Response.

(** [pd.read_csv] on the text of a file. *)
Variable read_csv : string → result DataFrame.

(** [requests.post(url, json=json)] *)
Definition requests_post (url : string) (json : pyobj) : Eff event Response :=
  _ ← emit (HttpPost url json);
  mret (server url json).

(** The second half of [textmining_pipeline]: the content type of the
    answer decides between parsing the body and printing what came. *)
Definition read_response (response : Response) : Eff event (option DataFrame) :=
  content_type ← lift (header (headers response) "Content-Type");
  if decide (content_type = "text/csv") then
    table_extractions ← lift (read_csv (text response));
    mret (Some table_extractions)
  else
    _ ← emit (Print "Response content type is not text/csv.");
    _ ← emit (PrintHeaders (headers response));
    _ ← emit (Print (text response));
    mret None.

(** [MiningWidget.textmining_pipeline] *)
Definition textmining_pipeline (mining_server_url : string)
    (information : pyobj) (debug : bool) : Eff event (option DataFrame) :=
  response ←
    match information with
    | PyList _ =>
      requests_post (mining_server_url +:+ "/database")
        (PyDict [("identifiers", information)])
    | PyStr _ =>
      requests_post (mining_server_url +:+ "/text")
        (PyDict [("text", information); ("debug", PyBool debug)])
    | _ => raise (TypeError "Wrong type for the information!")
    end;
  read_response response.

End Pipeline.

(** The HTTP requests among the events of a run. *)
Definition http_requests (events : list event) : list (string * pyobj) :=
  omap (fun ev => match ev with HttpPost url json => Some (url, json) | _ => None end) events.

(** What a run printed. *)
Definition printed (events : list event) : list event :=
  List.filter
    (fun ev => match ev with Print _ | PrintHeaders _ => true | _ => false end) events.

(** *** The stored table *)

(** Tables are objects: the widget holds a reference to its table, and so
    does whoever asked for it. *)
Definition loc : Type := positive.

(** The state of the widget the modelled methods read and write: the
    server URL, the reference to the table, and the text in the text area. *)
Record Widget : Type := MkWidget {
  mining_server_url : string;
  table_extractions : option loc;
  input_text : string
}.

(** [MiningWidget.__init__]: there is no table yet, and the text area shows
    [default_text]. *)
Definition MiningWidget_init (mining_server_url default_text : string) : Widget :=
  MkWidget mining_server_url None default_text.

(** A new object holding [d]. *)
Definition alloc (d : DataFrame) (heap : gmap loc DataFrame) : loc * gmap loc DataFrame :=
  let l := fresh (dom heap) in (l, <[l := d]> heap).

(** [DataFrame.copy()]: a new object with the same cells. *)
Definition DataFrame_copy (l : loc) (heap : gmap loc DataFrame)
    : option (loc * gmap loc DataFrame) :=
  d ← heap !! l;
  Some (alloc d heap).

(** [MiningWidget.get_extracted_table]: the reference it returns, and the
    heap afterwards.  [None] only when the widget's reference points to no
    object, which no run of the program brings about. *)
Definition get_extracted_table (self : Widget) (heap : gmap loc DataFrame)
    : option (loc * gmap loc DataFrame) :=
  match table_extractions self with
  | Some l => DataFrame_copy l heap
  | None => Some (alloc empty_DataFrame heap)
  end.

(** [self.table_extractions = table]: a table the pipeline returned is a new
    object. *)
Definition set_table_extractions (self : Widget) (table : option DataFrame)
    (heap : gmap loc DataFrame) : Widget * gmap loc DataFrame :=
  match table with
  | Some d =>
    (MkWidget (mining_server_url self) (Some (alloc d heap).1) (input_text self),
     (alloc d heap).2)
  | None => (MkWidget (mining_server_url self) None (input_text self), heap)
  end.

Section Clicks.
Variable in_ipython : bool.
Variable server : string → pyobj → Response.
Variable read_csv : string → result DataFrame.

(** [MiningWidget._mine_text_clicked]: the widget and the heap after the
    click, which are those before it when an exception was suppressed. *)
Definition mine_text_clicked (self : Widget) (heap : gmap loc DataFrame)
    : Eff event (Widget * gmap loc DataFrame) :=
  _ ← emit ClearOutput;
  after ← with_output ShowTraceback in_ipython (
    let text := input_text self in
    table ← textmining_pipeline server read_csv (mining_server_url self) (PyStr text) false;
    let after := set_table_extractions self table heap in
    _ ← emit (Display table);
    mret after);
  mret (default (self, heap) after).

End Clicks.

(** *** Mining the saved articles *)

(** A row of the table [ArticleSaver.get_chosen_texts] returns, as far as
    the widget reads it. *)
Record ChosenText : Type := MkChosenText {
  article_id : pyobj;
  paragraph_id : pyobj
}.

(** What [_mine_articles_clicked] does to the outside world: the events
    above, and [print(text, end='', flush=True)], which ends no line. *)
Inductive articles_event : Type :=
| Plain (ev : event)
| PrintInline (text : string).

(** A computation of the widget run inside [_mine_articles_clicked]. *)
Definition plainly {A} (m : Eff event A) : Eff articles_event A :=
  MkEff (Plain <$> trace m) (outcome m).

Fixpoint spaces (n : nat) : string :=
  match n with
  | 0 => EmptyString
  | S n' => String (Ascii.ascii_of_nat 32) (spaces n')
  end.

(** [s.ljust(width)] *)
Definition ljust (width : nat) (s : string) : string :=
  s +:+ spaces (width - String.length s).

Section ArticleClicks.
Variable in_ipython : bool.
Variable server : string → pyobj → Response.
Variable read_csv : string → result DataFrame.

(** The article saver and the timer are not part of the modelled code.  A
    saver is what its [get_chosen_texts] returns; a timer only measures, and
    [elapsed name] is its reading [timer[name]] formatted with [7.2f]. *)
Variable elapsed : string → string.

(** [MiningWidget._mine_articles_clicked] *)
Definition mine_articles_clicked (article_saver : option (list ChosenText))
    (self : Widget) (heap : gmap loc DataFrame)
    : Eff articles_event (Widget * gmap loc DataFrame) :=
  _ ← emit (Plain ClearOutput);
  match article_saver with
  | None =>
    _ ← with_output (fun e => Plain (ShowTraceback e)) in_ipython (
      emit (Plain (Print "No article saver was provided. Nothing to mine.")));
    mret (self, heap)
  | Some get_chosen_texts =>
    after ← with_output (fun e => Plain (ShowTraceback e)) in_ipython (
      _ ← emit (PrintInline (ljust 50 "Collecting saved items..."));
      let df_chosen_texts := get_chosen_texts in
      _ ← emit (Plain (Print (elapsed "collect items" +:+ " seconds")));
      _ ← emit (PrintInline (ljust 50 "Running the mining pipeline..."));
      let information :=
        (fun row => PyTuple [article_id row; paragraph_id row]) <$> df_chosen_texts in
      table ← plainly (textmining_pipeline server read_csv (mining_server_url self)
                         (PyList information) false);
      let after := set_table_extractions self table heap in
      _ ← emit (Plain (Print (elapsed "pipeline" +:+ " seconds")));
      _ ← emit (Plain (Display table));
      mret after);
    mret (default (self, heap) after)
  end.

End ArticleClicks.

(** The events of the widget among those of a click on "Mine Selected
    Articles!". *)
Definition plain_events (events : list articles_event) : list event :=
  omap (fun ev => match ev with Plain e => Some e | PrintInline _ => None end) events.

(** An in-place change of the table at [l] into [d]. *)
Definition mutate (l : loc) (d : DataFrame) (heap : gmap loc DataFrame) : gmap loc DataFrame :=
  <[l := d]> heap.

(** The table a reference of the widget stands for. *)
Definition stored_table (self : Widget) (heap : gmap loc DataFrame) : option DataFrame :=
  l ← table_extractions self; heap !! l.

End MiningWidget.

(** ** Example data *)

Module Examples.
Import EmbeddingModels.

(** An in-memory store: the connection is the table itself, and a query
    answers with the row of every requested id the table holds, in the order
    of the request. *)
Definition table_lookup (indices : list Z) (table : list Sentence) : list Sentence :=
  omap (fun i => snd <$> list_find (fun s => sentence_id s = i) table) indices.

(** A model built on the defaults of the base class: no preprocessing, and
    the embedding of a sentence is its length followed by zero. *)
Definition length_model : EmbeddingModel Z (list string) :=
  default_model 2 (fun raw_sentence => raw_sentence)
    (fun sentence => [Z.of_nat (String.length sentence); 0%Z]).

(** Sentences 1 to [n]. *)
Definition numbered_table (n : nat) : list Sentence :=
  (fun i => MkSentence (Z.of_nat i) ("sentence " +:+ pretty i)) <$> seq 1 n.

Definition ids_upto (n : nat) : list Z := Z.of_nat <$> seq 1 n.

(** An embedder for two sentences and three processes, without GPUs. *)
Definition small_embedder : MPEmbedder :=
  MkMPEmbedder "sqlite:///cord19.db" "SBioBERT" [11; 12]%Z
    (MkPath ["embeddings"] "sbiobert" ".h5") 16 1000 3 None true None "SBioBERT" None.

(** The same embedder asked for no process at all. *)
Definition idle_embedder : MPEmbedder :=
  MkMPEmbedder "sqlite:///cord19.db" "SBioBERT" [11; 12]%Z
    (MkPath ["embeddings"] "sbiobert" ".h5") 16 1000 0 None true None "SBioBERT" None.

(** An [H5.concatenate] that finds its files and returns. *)
Definition h5_joined (output : Path) (dataset : string) (inputs : list Path)
    (delete_inputs : bool) (batch_size : Z) : result unit := Ok tt.

Definition no_paths (path : Path) : bool := false.

(** A worker for sentences 1 to 25 with a batch size of 10, on a store that
    holds these sentences, with a model that computes what [length_model]
    does. *)
Definition chunk_kwargs : WorkerKwargs :=
  MkWorkerKwargs "sqlite:///cord19.db" "SBioBERT" (ids_upto 25)
    (MkPath ["embeddings"] "sbiobert_temp0" ".h5") 10 None None "SBioBERT".

Definition numbered_store (database_url : string) : list Sentence := numbered_table 25.

Definition loaded_length_model (model : Model) : EmbeddingModel Z (list string) :=
  length_model.

(** A stand-in for the pretrained network of [SBioBERT]: no tokenization,
    and the row of a sentence is its length followed by zeros. *)
Definition length_pool (texts : list string) : ndarray Z :=
  NdArray [length texts; 768]
    (concat ((fun sentence => Z.of_nat (String.length sentence) :: replicate 767 0%Z)
               <$> texts)).

(** A double quote and a line feed, as one-character strings. *)
Definition dquote : string := String (Ascii.ascii_of_nat 34) EmptyString.
Definition newline : string := String (Ascii.ascii_of_nat 10) EmptyString.

Fixpoint split_on (sep : Ascii.ascii) (s : string) : list string :=
  match s with
  | EmptyString => [EmptyString]
  | String c s' =>
    if decide (c = sep) then EmptyString :: split_on sep s'
    else
      match split_on sep s' with
      | [] => [String c EmptyString]
      | field :: fields => String c field :: fields
      end
  end.

(** [str(pathlib.PurePosixPath(p))]: empty components and [.] components
    are dropped, and with them a trailing slash; a path that starts with
    exactly two slashes keeps both; the empty path is written [.]. *)
Definition posix_path_text (p : string) : string :=
  let parts :=
    filter (fun part => part ≠ EmptyString ∧ part ≠ ".")
      (split_on (Ascii.ascii_of_nat 47) p) in
  let root :=
    if String.prefix "//" p && negb (String.prefix "///" p) then "//"
    else if String.prefix "/" p then "/"
    else EmptyString in
  if decide (root = EmptyString ∧ parts = []) then "."
  else root +:+ String.concat "/" parts.

(** A machine without any file, whose libraries load whatever they are
    asked for. *)
Definition no_files : Libraries :=
  MkLibraries (fun path => false) posix_path_text (fun instance => Ok tt).

(** A reader for plain comma-separated text: the first line names the
    columns, and a text with no line is refused. *)
Definition plain_read_csv (text : string) : result MiningWidget.DataFrame :=
  match filter (fun line => line ≠ EmptyString) (split_on (Ascii.ascii_of_nat 10) text) with
  | [] => Raise (ValueError "No columns to parse from file")
  | header :: lines =>
    Ok (MiningWidget.MkDataFrame (split_on (Ascii.ascii_of_nat 44) header)
          (split_on (Ascii.ascii_of_nat 44) <$> lines))
  end.

(** The table of the widget tests, as CSV. *)
Definition extractions_csv : string :=
  "name,department,birthday" +:+ newline +:+
  "John Smith,Accounting,November" +:+ newline +:+
  "Erica Meyers,IT,March" +:+ newline.

Definition extractions_table : MiningWidget.DataFrame :=
  MiningWidget.MkDataFrame ["name"; "department"; "birthday"]
    [["John Smith"; "Accounting"; "November"]; ["Erica Meyers"; "IT"; "March"]].

(** A server that answers every request with the table as [text/csv]. *)
Definition csv_server (url : string) (json : MiningWidget.pyobj) : MiningWidget.Response :=
  MiningWidget.MkResponse [("Content-Type", "text/csv")] extractions_csv.

(** The JSON body of the widget tests: a list of warnings beside the table
    as a CSV string. *)
Definition extractions_json : string :=
  "{" +:+ dquote +:+ "warnings" +:+ dquote +:+ ": [" +:+ dquote +:+ "This is a test warning"
  +:+ dquote +:+ "], " +:+ dquote +:+ "csv_extractions" +:+ dquote +:+ ": " +:+ dquote
  +:+ "name,department,birthday\nJohn Smith,Accounting,November\nErica Meyers,IT,March\n"
  +:+ dquote +:+ "}".

(** A server that answers every request with that body as
    [application/json]. *)
Definition json_server (url : string) (json : MiningWidget.pyobj) : MiningWidget.Response :=
  MiningWidget.MkResponse
    [("request-id", "1234abcdeABCDE"); ("Content-Type", "application/json")]
    extractions_json.

(** A server whose answers carry no header at all. *)
Definition bare_server (url : string) (json : MiningWidget.pyobj) : MiningWidget.Response :=
  MiningWidget.MkResponse [] extractions_csv.

(** Two saved paragraphs, and a timer that always reads a hundredth of a
    second. *)
Definition chosen_texts : list MiningWidget.ChosenText :=
  [MiningWidget.MkChosenText (MiningWidget.PyInt 7) (MiningWidget.PyInt 0);
   MiningWidget.MkChosenText (MiningWidget.PyInt 7) (MiningWidget.PyInt 3)].

Definition stopwatch (name : string) : string := "   0.01".

End Examples.

(** * Properties *)

(** ** Lists, slices and batches *)

Section ListFacts.
Context {A : Type}.
Implicit Types l : list A.

Lemma take_min_length l n : take (n `min` length l) l = take n l.
Proof.
  destruct (Nat.min_spec n (length l)) as [[_ ->]|[Hle ->]]; [done|].
  rewrite !take_ge; [done|lia|lia].
Qed.

(** A slice with bounds inside the list is a [take] of a [drop]. *)
Lemma slice_nonneg l (a n : nat) :
  a ≤ length l →
  slice l (Z.of_nat a) (Z.min (Z.of_nat a + Z.of_nat n) (Z.of_nat (length l)))
  = take n (drop a l).
Proof.
  intros Ha. unfold slice, slice_bound.
  assert ((Z.of_nat a <? 0)%Z = false) as -> by (apply Z.ltb_ge; lia).
  assert ((Z.min (Z.of_nat a + Z.of_nat n) (Z.of_nat (length l)) <? 0)%Z = false) as ->
    by (apply Z.ltb_ge; lia).
  replace (Z.to_nat (Z.min (Z.of_nat a) (Z.of_nat (length l)))) with a by lia.
  replace (Z.to_nat _) with (n `min` length (drop a l)).
  - apply take_min_length.
  - rewrite length_drop. lia.
Qed.

Lemma concat_batch_at_seq l (b a k : nat) :
  concat (EmbeddingModels.batch_at l b <$> seq a k) = take (k * b) (drop (a * b) l).
Proof.
  revert a. induction k as [|k IH]; intros a; simpl.
  - done.
  - rewrite IH. unfold EmbeddingModels.batch_at.
    rewrite <- (take_take_drop (drop (a * b) l) b (k * b)).
    rewrite drop_drop. do 3 f_equal. lia.
Qed.

Lemma consecutive_batches_concat (b : nat) l :
  0 < b → concat (EmbeddingModels.consecutive_batches b l) = l.
Proof.
  intros Hb. unfold EmbeddingModels.consecutive_batches.
  rewrite concat_batch_at_seq. simpl. rewrite drop_0. apply take_ge.
  pose proof (Nat.div_mod_eq (length l) b) as Hdm.
  pose proof (Nat.mod_upper_bound (length l) b) as Hub.
  case_decide; nia.
Qed.

Lemma consecutive_batches_lengths (b : nat) l :
  length <$> EmbeddingModels.consecutive_batches b l
  = (λ i, b `min` (length l - i * b)) <$>
    seq 0 (length l `div` b + (if decide (length l `mod` b = 0) then 0 else 1)).
Proof.
  unfold EmbeddingModels.consecutive_batches. rewrite <- list_fmap_compose.
  apply list_fmap_ext. intros _ i _. simpl. unfold EmbeddingModels.batch_at.
  by rewrite length_take, length_drop.
Qed.

Lemma consecutive_batches_bounds (b : nat) l :
  0 < b →
  Forall (λ batch, batch ≠ [] ∧ length batch ≤ b) (EmbeddingModels.consecutive_batches b l).
Proof.
  intros Hb. unfold EmbeddingModels.consecutive_batches.
  apply Forall_fmap, Forall_forall. intros i Hi.
  apply elem_of_seq in Hi. simpl. unfold EmbeddingModels.batch_at.
  pose proof (Nat.div_mod_eq (length l) b) as Hdm.
  assert (i * b < length l) as Hlt by (case_decide; nia).
  split.
  - intros Hnil. apply (f_equal length) in Hnil.
    rewrite length_take, length_drop in Hnil. simpl in Hnil. lia.
  - rewrite length_take. lia.
Qed.

Lemma consecutive_batches_nil (b : nat) l :
  0 < b → l ≠ [] → EmbeddingModels.consecutive_batches b l ≠ [].
Proof.
  intros Hb Hl Hnil. apply Hl.
  rewrite <- (consecutive_batches_concat b l Hb). by rewrite Hnil.
Qed.

End ListFacts.

(** ** The batch loop of [compute_database_embeddings] *)

Section LoopFacts.
Import EmbeddingModels.
Context {E P : Type} (model : EmbeddingModel E P).
Implicit Types sentences : list Sentence.

(** An iteration whose start lies inside the table embeds the rows of its
    batch. *)
Lemma batch_step_run sentences (b i : nat) acc :
  0 < b → i * b < length sentences →
  batch_step model sentences (Z.of_nat b) acc (Z.of_nat i)
  = (acc.1 ++ [embed_batch model (batch_at sentences b i)],
     acc.2 ++ (sentence_id <$> batch_at sentences b i)).
Proof.
  intros Hb Hlt. unfold batch_step.
  replace (Z.of_nat i * Z.of_nat b)%Z with (Z.of_nat (i * b)) by (rewrite Nat2Z.inj_mul; ring).
  replace ((Z.of_nat i + 1) * Z.of_nat b)%Z with (Z.of_nat (i * b) + Z.of_nat b)%Z
    by (rewrite Nat2Z.inj_mul; ring).
  destruct (Z.eqb_spec (Z.of_nat (i * b))
    (Z.min (Z.of_nat (i * b) + Z.of_nat b) (Z.of_nat (length sentences)))) as [Heq|_]; [lia|].
  rewrite slice_nonneg by lia. done.
Qed.

(** The iteration that starts exactly at the end of the table is skipped. *)
Lemma batch_step_skip sentences (b i : nat) acc :
  i * b = length sentences →
  batch_step model sentences (Z.of_nat b) acc (Z.of_nat i) = acc.
Proof.
  intros Heq. unfold batch_step.
  replace (Z.of_nat i * Z.of_nat b)%Z with (Z.of_nat (i * b)) by (rewrite Nat2Z.inj_mul; ring).
  replace ((Z.of_nat i + 1) * Z.of_nat b)%Z with (Z.of_nat (i * b) + Z.of_nat b)%Z
    by (rewrite Nat2Z.inj_mul; ring).
  destruct (Z.eqb_spec (Z.of_nat (i * b))
    (Z.min (Z.of_nat (i * b) + Z.of_nat b) (Z.of_nat (length sentences)))) as [_|Hne]; [done|lia].
Qed.

Lemma foldl_batch_step sentences (b : nat) (ixs : list nat) acc :
  0 < b → Forall (λ i, i * b < length sentences) ixs →
  foldl (batch_step model sentences (Z.of_nat b)) acc (Z.of_nat <$> ixs)
  = (acc.1 ++ (embed_batch model <$> (batch_at sentences b <$> ixs)),
     acc.2 ++ (sentence_id <$> concat (batch_at sentences b <$> ixs))).
Proof.
  intros Hb Hixs. revert acc. induction Hixs as [|i ixs Hi _ IH]; intros acc; simpl.
  - rewrite !app_nil_r. by destruct acc.
  - rewrite batch_step_run by done. rewrite IH. simpl.
    rewrite fmap_app, <- !app_assoc. done.
Qed.

(** With a positive batch size the loop embeds the consecutive batches of
    the table, one array per batch, and collects the ids of all rows in table
    order. *)
Lemma embedding_loop_spec sentences (batch_size : Z) :
  (0 < batch_size)%Z →
  embedding_loop model sentences batch_size
  = Ok (embed_batch model <$> consecutive_batches (Z.to_nat batch_size) sentences,
        sentence_id <$> sentences).
Proof.
  intros Hpos. set (b := Z.to_nat batch_size).
  assert (0 < b) as Hb by lia.
  rewrite <- (consecutive_batches_concat b sentences Hb) at 3.
  replace batch_size with (Z.of_nat b) by lia.
  unfold embedding_loop, floordiv.
  destruct (Z.eqb_spec (Z.of_nat b) 0) as [?|_]; [lia|]. simpl.
  f_equal. unfold range, consecutive_batches.
  set (n := length sentences).
  pose proof (Nat.div_mod_eq n b) as Hdm.
  pose proof (Nat.mod_upper_bound n b) as Hub.
  replace (Z.to_nat (Z.of_nat n / Z.of_nat b + 1)) with (S (n `div` b))
    by (rewrite <- Nat2Z.inj_div; lia).
  rewrite seq_S, fmap_app, foldl_app. simpl.
  rewrite (foldl_batch_step sentences b); [|done|].
  2:{ apply Forall_forall. intros i Hi. apply elem_of_seq in Hi. fold n. nia. }
  simpl. case_decide as Hmod.
  - rewrite batch_step_skip by (fold n; nia).
    rewrite Nat.add_0_r. reflexivity.
  - rewrite batch_step_run; [|done|fold n; nia]. simpl.
    replace (n `div` b + 1) with (S (n `div` b)) by lia.
    rewrite seq_S, !fmap_app, concat_app. simpl. by rewrite app_nil_r, fmap_app.
Qed.

(** Arrays that all have [d] columns stack into one array with [d] columns
    and as many rows as they have together. *)
Lemma concatenate_rows (arrays : list (ndarray E)) (d : nat) :
  arrays ≠ [] →
  Forall (λ a, ∃ k, shape a = [k; d]) arrays →
  concatenate arrays
  = Ok (NdArray (E:=E) [sum_list ((λ a, hd 0 (shape a)) <$> arrays); d]
          (concat (data <$> arrays))).
Proof.
  intros Hne Hall. destruct arrays as [|a rest]; [done|].
  inversion Hall as [|? ? [k Hk] Hrest]; subst.
  unfold concatenate. rewrite Hk.
  replace (forallb _ rest) with true; [done|].
  symmetry. apply forallb_forall. intros x Hx.
  rewrite Forall_forall in Hrest. apply list_elem_of_In, Hrest in Hx as [k' Hk'].
  apply bool_decide_eq_true. rewrite Hk'. done.
Qed.

(** With no array at all, stacking fails. *)
Lemma concatenate_nil : concatenate (E:=E) [] = Raise (ValueError "need at least one array to concatenate").
Proof. reflexivity. Qed.

End LoopFacts.

(** ** [compute_database_embeddings] *)

Section ComputeFacts.
Import EmbeddingModels.
Context {E P Connection : Type}.
Context (retrieve : list Z → Connection → list Sentence) (model : EmbeddingModel E P).

Lemma sum_list_lengths {A} (ls : list (list A)) :
  sum_list (length <$> ls) = length (concat ls).
Proof.
  induction ls as [|l ls IH]; simpl; [done|]. by rewrite length_app, <- IH.
Qed.

(** The shapes of the per-batch arrays of a model that keeps the promise of
    [embed_many]. *)
Lemma embed_batches_shapes (batches : list (list Sentence)) :
  embeds_rows model →
  Forall (λ batch, batch ≠ []) batches →
  Forall (λ a, ∃ k, shape a = [k; dim]) (embed_batch model <$> batches)
  ∧ (λ a, hd 0 (shape a)) <$> (embed_batch model <$> batches) = length <$> batches.
Proof.
  intros Hrows Hne. induction Hne as [|batch batches Hb _ [IH1 IH2]]; simpl; [done|].
  assert (shape (embed_batch model batch) = [length batch; dim]) as Hshape.
  { unfold embed_batch. rewrite Hrows, length_fmap; [done|].
    by destruct batch. }
  split.
  - constructor; [by eexists|done].
  - rewrite Hshape. simpl. f_equal. exact IH2.
Qed.

(** What the function returns once the loop has embedded consecutive
    batches of a non-empty table. *)
Lemma compute_database_embeddings_ok connection indices (batch_size : Z) :
  (0 < batch_size)%Z →
  embeds_rows model →
  retrieve indices connection ≠ [] →
  compute_database_embeddings retrieve model connection indices batch_size
  = Ok (NdArray (E:=E) [length (retrieve indices connection); dim]
          (concat ((λ batch, data (embed_batch model batch)) <$>
             consecutive_batches (Z.to_nat batch_size) (retrieve indices connection))),
        sentence_id <$> retrieve indices connection).
Proof.
  intros Hpos Hrows Hne. unfold compute_database_embeddings.
  rewrite embedding_loop_spec by done. simpl.
  set (sentences := retrieve indices connection) in *.
  set (batches := consecutive_batches (Z.to_nat batch_size) sentences).
  pose proof (consecutive_batches_bounds (Z.to_nat batch_size) sentences ltac:(lia)) as Hb.
  destruct (embed_batches_shapes batches Hrows) as [Hshapes Hhd].
  { eapply Forall_impl; [exact Hb|]. by intros ? [? _]. }
  rewrite (concatenate_rows _ dim); [| |done].
  2:{ intros Hnil. apply fmap_nil_inv in Hnil.
      by apply (consecutive_batches_nil (Z.to_nat batch_size) sentences); [lia|..]. }
  simpl. rewrite Hhd, sum_list_lengths.
  unfold batches at 1. rewrite consecutive_batches_concat by lia.
  by rewrite <- list_fmap_compose.
Qed.

(** C1, as amended: when the store returns at least one sentence, the batch
    size is positive and the model's [embed_many] returns one row of
    [model.dim] numbers for each sentence it is handed, as its documentation
    says, [compute_database_embeddings] returns an array of shape
    [(retrieved_count, model.dim)] together with the ids of the retrieved
    sentences, in the order the store returned them.  The array is
    the stack of the per-batch arrays of the consecutive batches of
    [batch_size] rows, so its blocks of rows and the ids go batch by batch in
    the same order; when the store returns exactly the requested ids in the
    requested order, the ids returned are the request; and 25 retrieved
    sentences with [batch_size = 10] are embedded as three batches of 10, 10
    and 5 rows. *)
Theorem compute_database_embeddings_rows connection indices (batch_size : Z) :
  (0 < batch_size)%Z →
  embeds_rows model →
  retrieve indices connection ≠ [] →
  let sentences := retrieve indices connection in
  let batches := consecutive_batches (Z.to_nat batch_size) sentences in
  ∃ final_embeddings,
    compute_database_embeddings retrieve model connection indices batch_size
      = Ok (final_embeddings, sentence_id <$> sentences)
    ∧ shape final_embeddings = [length sentences; dim]
    ∧ embedding_loop model sentences batch_size
      = Ok (embed_batch model <$> batches, sentence_id <$> sentences)
    ∧ data final_embeddings = concat ((λ batch, data (embed_batch model batch)) <$> batches)
    ∧ concat batches = sentences
    ∧ Forall (λ batch, batch ≠ [] ∧ length batch ≤ Z.to_nat batch_size) batches
    ∧ (sentence_id <$> sentences = indices →
         compute_database_embeddings retrieve model connection indices batch_size
         = Ok (final_embeddings, indices))
    ∧ (batch_size = 10%Z → length sentences = 25 → length <$> batches = [10; 10; 5]).
Proof.
  intros Hpos Hrows Hne sentences batches.
  eexists. split; [by apply compute_database_embeddings_ok|]. simpl.
  split; [done|]. split; [by apply embedding_loop_spec|]. split; [done|].
  split; [apply consecutive_batches_concat; lia|].
  split; [apply consecutive_batches_bounds; lia|].
  split.
  - intros Hids. rewrite compute_database_embeddings_ok by done.
    fold sentences. by rewrite Hids.
  - intros -> H25. unfold batches.
    rewrite consecutive_batches_lengths, H25. reflexivity.
Qed.

(** C10, as amended: with a positive batch size, a store that returns no sentence makes
    [compute_database_embeddings] fail with the error of stacking an empty
    list of arrays; so whenever the function returns, the store returned at
    least one sentence. *)
Theorem compute_database_embeddings_no_sentences connection indices (batch_size : Z) :
  (0 < batch_size)%Z →
  (retrieve indices connection = [] →
     compute_database_embeddings retrieve model connection indices batch_size
     = Raise (ValueError "need at least one array to concatenate"))
  ∧ (∀ returned,
       compute_database_embeddings retrieve model connection indices batch_size = Ok returned →
       retrieve indices connection ≠ []).
Proof.
  intros Hpos.
  assert (retrieve indices connection = [] →
    compute_database_embeddings retrieve model connection indices batch_size
    = Raise (ValueError "need at least one array to concatenate")) as Hnil.
  { intros Hnil. unfold compute_database_embeddings.
    rewrite embedding_loop_spec, Hnil by done.
    unfold consecutive_batches. simpl. rewrite Nat.Div0.div_0_l, Nat.Div0.mod_0_l.
    reflexivity. }
  split; [done|].
  intros returned Hok Hempty. rewrite (Hnil Hempty) in Hok. discriminate.
Qed.

End ComputeFacts.

(** The defaults of the base class keep the promise of [embed_many] when
    [embed] returns [d] numbers for every sentence. *)
Lemma default_model_embeds_rows {E P1 : Type} (d : nat)
    (preprocess : string → P1) (embed : P1 → list E) :
  (∀ p, length (embed p) = d) →
  EmbeddingModels.embeds_rows (EmbeddingModels.default_model d preprocess embed).
Proof.
  intros Hd texts Hne. destruct texts as [|t texts]; [done|]. simpl.
  by rewrite Hd, !length_fmap.
Qed.

(** Twenty-five sentences of the example store, in batches of ten. *)
Lemma compute_database_embeddings_rows_witness :
  ∃ final_embeddings,
    EmbeddingModels.compute_database_embeddings Examples.table_lookup Examples.length_model
      (Examples.numbered_table 25) (Examples.ids_upto 25) 10
    = Ok (final_embeddings, Examples.ids_upto 25)
    ∧ shape final_embeddings = [25; 2].
Proof.
  destruct (compute_database_embeddings_rows Examples.table_lookup Examples.length_model
              (Examples.numbered_table 25) (Examples.ids_upto 25) 10)
    as (final_embeddings & _ & Hshape & _ & _ & _ & _ & Hrequest & _).
  - lia.
  - apply default_model_embeds_rows. intros p. reflexivity.
  - vm_compute. discriminate.
  - exists final_embeddings. split.
    + apply Hrequest. vm_compute. reflexivity.
    + exact Hshape.
Defined.

(** C1 as stated fails in three ways, each with every requested id found
    in the store.  For the empty request the function raises instead of
    returning a pair of arrays.  With a model whose [embed_many] squeezes
    its result, as that of [SBioBERT] does, three sentences in batches of
    one come back as a flat array of 2304 numbers and not as an array of
    shape (3, 768).  And with a batch size of zero the function raises
    [ZeroDivisionError]. *)
Lemma compute_database_embeddings_not_rows :
  (Examples.table_lookup [] (Examples.numbered_table 25) = []
   ∧ EmbeddingModels.compute_database_embeddings Examples.table_lookup Examples.length_model
       (Examples.numbered_table 25) [] 10
     = Raise (ValueError "need at least one array to concatenate"))
  ∧ (EmbeddingModels.sentence_id <$>
       Examples.table_lookup (Examples.ids_upto 3) (Examples.numbered_table 3)
     = Examples.ids_upto 3
     ∧ EmbeddingModels.dim
         (EmbeddingModel := EmbeddingModels.SBioBERT_model (λ texts, texts) Examples.length_pool)
       = 768
     ∧ ∃ embeddings,
         EmbeddingModels.compute_database_embeddings Examples.table_lookup
           (EmbeddingModels.SBioBERT_model (λ texts, texts) Examples.length_pool)
           (Examples.numbered_table 3) (Examples.ids_upto 3) 1
         = Ok (embeddings, Examples.ids_upto 3)
         ∧ shape embeddings = [2304])
  ∧ EmbeddingModels.compute_database_embeddings Examples.table_lookup Examples.length_model
      (Examples.numbered_table 25) (Examples.ids_upto 25) 0
    = Raise (ZeroDivisionError "integer division or modulo by zero").
Proof.
  split; [split; reflexivity|]. split; [|reflexivity].
  split; [reflexivity|]. split; [reflexivity|].
  eexists. split; [vm_compute; reflexivity|reflexivity].
Qed.

(** C10 as stated fails when the batch size is not positive: with no
    sentence retrieved, a batch size of zero raises [ZeroDivisionError]
    before anything is stacked, and a negative batch size makes the loop
    embed one empty batch, so that the function returns a pair of empty
    arrays. *)
Lemma compute_database_embeddings_no_sentences_returns :
  Examples.table_lookup [] (Examples.numbered_table 3) = []
  ∧ EmbeddingModels.compute_database_embeddings Examples.table_lookup Examples.length_model
      (Examples.numbered_table 3) [] 0
    = Raise (ZeroDivisionError "integer division or modulo by zero")
  ∧ EmbeddingModels.compute_database_embeddings Examples.table_lookup Examples.length_model
      (Examples.numbered_table 3) [] (-2)
    = Ok (NdArray [0] [], []).
Proof. split; [|split]; reflexivity. Qed.

(** An empty request, and a request for an id the store does not hold. *)
Lemma compute_database_embeddings_no_sentences_witness :
  EmbeddingModels.compute_database_embeddings Examples.table_lookup Examples.length_model
    (Examples.numbered_table 3) [] 10
  = Raise (ValueError "need at least one array to concatenate")
  ∧ EmbeddingModels.compute_database_embeddings Examples.table_lookup Examples.length_model
      (Examples.numbered_table 3) [99%Z] 10
    = Raise (ValueError "need at least one array to concatenate").
Proof.
  split.
  - apply (compute_database_embeddings_no_sentences Examples.table_lookup Examples.length_model
             (Examples.numbered_table 3) [] 10); [lia|reflexivity].
  - apply (compute_database_embeddings_no_sentences Examples.table_lookup Examples.length_model
             (Examples.numbered_table 3) [99%Z] 10); [lia|reflexivity].
Defined.

(** ** [np.array_split] *)

Section SplitFacts.
Context {A : Type}.
Implicit Types l ary : list A.

Lemma section_sizes_length (n k : nat) : 0 < k → length (section_sizes n k) = k.
Proof.
  intros Hk. unfold section_sizes. cbv zeta.
  rewrite length_app, !length_replicate.
  pose proof (Nat.mod_upper_bound n k). lia.
Qed.

Lemma section_sizes_sum (n k : nat) : 0 < k → sum_list (section_sizes n k) = n.
Proof.
  intros Hk. unfold section_sizes.
  cbv zeta. rewrite sum_list_with_app, !sum_list_replicate.
  pose proof (Nat.mod_upper_bound n k).
  pose proof (Nat.div_mod_eq n k). nia.
Qed.

Lemma split_at_sizes_length (sizes : list nat) ary :
  length (split_at_sizes sizes ary) = length sizes.
Proof. revert ary. induction sizes as [|n sizes IH]; intros ary; simpl; [done|by rewrite IH]. Qed.

Lemma split_at_sizes_concat (sizes : list nat) ary :
  concat (split_at_sizes sizes ary) = take (sum_list sizes) ary.
Proof.
  revert ary. induction sizes as [|n sizes IH]; intros ary; simpl; [done|].
  by rewrite IH, take_take_drop.
Qed.

(** Splitting into a positive number of sections gives that many sections,
    which put end to end are the array. *)
Lemma array_split_spec ary (Nsections : Z) :
  (0 < Nsections)%Z →
  ∃ sections,
    array_split ary Nsections = Ok sections
    ∧ Z.of_nat (length sections) = Nsections
    ∧ concat sections = ary.
Proof.
  intros Hpos. unfold array_split.
  destruct (Z.leb_spec Nsections 0) as [?|_]; [lia|].
  eexists. split; [done|]. split.
  - rewrite split_at_sizes_length, section_sizes_length; lia.
  - rewrite split_at_sizes_concat, section_sizes_sum by lia. by apply take_ge.
Qed.

Lemma concat_filter_nonempty (ls : list (list A)) :
  concat (filter (λ x, 0 < length x) ls) = concat ls.
Proof.
  induction ls as [|x ls IH]; [done|].
  rewrite filter_cons. case_decide as Hx; simpl.
  - by rewrite IH.
  - rewrite IH. destruct x; [done|simpl in Hx; lia].
Qed.

Lemma filter_nonempty_Forall (ls : list (list A)) :
  Forall (λ x, x ≠ []) (filter (λ x, 0 < length x) ls).
Proof.
  apply Forall_forall. intros x [Hx _]%list_elem_of_filter.
  intros ->. simpl in Hx. lia.
Qed.

End SplitFacts.

(** ** [MPEmbedder] *)

Section EffFacts.
Context {Ev A B : Type}.

Lemma eff_bind_ok (m : Eff Ev A) (f : A → Eff Ev B) (a : A) :
  outcome m = Ok a →
  m ≫= f = MkEff (trace m ++ trace (f a)) (outcome (f a)).
Proof. intros H. unfold mbind, eff_bind. by rewrite H. Qed.

Lemma eff_bind_raise (m : Eff Ev A) (f : A → Eff Ev B) (e : exn) :
  outcome m = Raise e →
  m ≫= f = MkEff (trace m) (Raise e).
Proof. intros H. unfold mbind, eff_bind. by rewrite H. Qed.

End EffFacts.

Section EmbedderFacts.
Import EmbeddingModels.
Context (H5_concatenate : Path → string → list Path → bool → Z → result unit).

Lemma join_all_spec (worker_processes : list string) :
  join_all worker_processes = MkEff (ProcessJoin <$> worker_processes) (Ok tt).
Proof.
  induction worker_processes as [|p ps IH]; simpl; [done|].
  rewrite IH. reflexivity.
Qed.

(** Starting the workers: one process per chunk, in the order of the
    chunks, each with its chunk and its own temporary file. *)
Lemma start_workers_spec (self : MPEmbedder) (output_folder : list string)
    (process_ix : nat) (splits : list (list Z)) :
  (∀ i, i < length splits → is_ok (gpu_for (gpus self) (process_ix + i)) = true) →
  let names := worker_name <$> seq process_ix (length splits) in
  let temps := temp_h5_path output_folder (h5_path_output self)
                 <$> seq process_ix (length splits) in
  ∃ workers : list WorkerKwargs,
    start_workers self output_folder process_ix splits
    = MkEff (zip_with ProcessStart names workers) (Ok (names, temps))
    ∧ w_indices <$> workers = splits
    ∧ w_temp_h5_path <$> workers = temps.
Proof.
  revert process_ix. induction splits as [|split splits IH]; intros process_ix Hgpu; simpl.
  - by exists [].
  - destruct (IH (S process_ix)) as (workers & Hrun & Hsplits & Htemps).
    { intros i Hi. specialize (Hgpu (S i)). simpl in Hgpu.
      replace (S process_ix + i) with (process_ix + S i) by lia. apply Hgpu. lia. }
    pose proof (Hgpu 0 ltac:(simpl; lia)) as Hg0. rewrite Nat.add_0_r in Hg0.
    destruct (gpu_for (gpus self) process_ix) as [gpu|] eqn:Hg; [|done].
    eexists (_ :: workers). split; [|split].
    + rewrite Hrun. unfold mbind, eff_bind, lift, emit. simpl.
      rewrite app_nil_r. reflexivity.
    + rewrite fmap_cons. simpl. by f_equal.
    + rewrite fmap_cons. simpl. by f_equal.
Qed.

(** C3, as amended: for a positive number of processes, [do_embedding] cuts
    the indices into the sections of [np.array_split] and keeps the
    non-empty ones: at most [n_processes] chunks, none empty, which put end
    to end in chunk order are the indices.  It starts one worker per chunk,
    in chunk order, handing worker [i] chunk [i] and the temporary file
    numbered [i], and after joining them calls [H5.concatenate] on these
    temporary files in that same order; the run ends the way this call
    ends. *)
Theorem do_embedding_chunk_order (self : MPEmbedder) :
  (0 < n_processes self)%Z →
  gpus_match self →
  let output_folder := default (parent (h5_path_output self)) (temp_folder self) in
  ∃ (sections chunks : list (list Z)) (workers : list WorkerKwargs),
    array_split (indices self) (n_processes self) = Ok sections
    ∧ chunks = filter (λ x, 0 < length x) sections
    ∧ (Z.of_nat (length chunks) ≤ n_processes self)%Z
    ∧ Forall (λ chunk, chunk ≠ []) chunks
    ∧ concat chunks = indices self
    ∧ w_indices <$> workers = chunks
    ∧ w_temp_h5_path <$> workers
      = temp_h5_path output_folder (h5_path_output self) <$> seq 0 (length chunks)
    ∧ do_embedding H5_concatenate self
      = MkEff
          ([Mkdir (parent (h5_path_output self)); Mkdir output_folder]
           ++ zip_with ProcessStart (worker_name <$> seq 0 (length chunks)) workers
           ++ (ProcessJoin <$> (worker_name <$> seq 0 (length chunks)))
           ++ [H5Concatenate (h5_path_output self) (h5_dataset_name self)
                 (w_temp_h5_path <$> workers) (delete_temp self) (batch_size_transfer self)])
          (H5_concatenate (h5_path_output self) (h5_dataset_name self)
             (w_temp_h5_path <$> workers) (delete_temp self) (batch_size_transfer self)).
Proof.
  intros Hpos Hgpus output_folder.
  destruct (array_split_spec (indices self) (n_processes self) Hpos)
    as (sections & Hsplit & Hlen & Hconcat).
  set (chunks := filter (λ x : list Z, 0 < length x) sections).
  assert (length chunks ≤ length sections) as Hle by apply length_filter.
  destruct (start_workers_spec self output_folder 0 chunks) as (workers & Hrun & Hix & Htemps).
  { intros i Hi. simpl. unfold gpu_for. unfold gpus_match in Hgpus.
    destruct (gpus self) as [g|]; [|done].
    destruct (lookup_lt_is_Some_2 g i) as [gpu ->]; [lia|done]. }
  exists sections, chunks, workers.
  split; [done|]. split; [done|]. split; [lia|].
  split; [apply filter_nonempty_Forall|].
  split; [by unfold chunks; rewrite concat_filter_nonempty|].
  split; [done|]. split; [done|].
  unfold do_embedding, embedding_splits. fold output_folder.
  rewrite Hsplit.
  rewrite (eff_bind_ok (emit _) _ tt) by done.
  rewrite (eff_bind_ok (emit _) _ tt) by done.
  rewrite (eff_bind_ok (lift _) _ chunks) by done.
  rewrite Hrun.
  rewrite (eff_bind_ok (MkEff _ _) _ _) by done.
  rewrite join_all_spec.
  rewrite (eff_bind_ok (MkEff _ _) _ tt) by done.
  rewrite (eff_bind_ok (emit _) _ tt) by done. simpl.
  rewrite Htemps. reflexivity.
Qed.

End EmbedderFacts.

(** Two sentences for three processes: the empty third section is dropped,
    and the two workers and their temporary files follow the order of the
    indices. *)
Lemma do_embedding_chunk_order_witness :
  ∃ workers : list EmbeddingModels.WorkerKwargs,
    EmbeddingModels.w_indices <$> workers = [[11%Z]; [12%Z]]
    ∧ EmbeddingModels.w_temp_h5_path <$> workers
      = [EmbeddingModels.MkPath ["embeddings"] "sbiobert_temp0" ".h5";
         EmbeddingModels.MkPath ["embeddings"] "sbiobert_temp1" ".h5"]
    ∧ outcome (EmbeddingModels.do_embedding Examples.h5_joined Examples.small_embedder) = Ok tt.
Proof.
  destruct (do_embedding_chunk_order Examples.h5_joined Examples.small_embedder)
    as (sections & chunks & workers & Hsplit & Hchunks & _ & _ & _ & Hix & Htemps & Hrun).
  - simpl. lia.
  - exact I.
  - vm_compute in Hsplit. injection Hsplit as <-.
    vm_compute in Hchunks. subst chunks.
    exists workers. split; [exact Hix|]. split; [exact Htemps|].
    rewrite Hrun. reflexivity.
Defined.

(** C3 as stated fails when no process is asked for: [np.array_split]
    refuses to cut the indices into zero sections, so the run stops after
    creating its folders, with no chunk made, no worker started and no
    output file assembled. *)
Lemma do_embedding_zero_processes :
  EmbeddingModels.do_embedding Examples.h5_joined Examples.idle_embedder
  = MkEff [EmbeddingModels.Mkdir ["embeddings"]; EmbeddingModels.Mkdir ["embeddings"]]
      (Raise (ValueError "number sections must be larger than 0.")).
Proof. reflexivity. Qed.

(** C4: [MPEmbedder.__init__] causes no event at all, so it starts no
    worker; given a GPU list whose length differs from [n_processes] it
    raises [ValueError], and given no GPU list or one with exactly
    [n_processes] entries it returns the embedder, which keeps the
    arguments. *)
Theorem MPEmbedder_init_gpus
    (database_url model_name_or_class : string) (indices : list Z)
    (h5_path_output : EmbeddingModels.Path)
    (batch_size_inference batch_size_transfer n_processes : Z)
    (checkpoint_path : option string) (gpus : option (list (option Z)))
    (delete_temp : bool) (temp_folder : option (list string))
    (h5_dataset_name : option string) :
  let made := EmbeddingModels.MPEmbedder_init database_url model_name_or_class indices
                h5_path_output batch_size_inference batch_size_transfer n_processes
                checkpoint_path gpus delete_temp temp_folder h5_dataset_name in
  trace made = []
  ∧ (∀ g, gpus = Some g → Z.of_nat (length g) ≠ n_processes →
       outcome made
       = Raise (ValueError "One needs to specify the GPU for each process separately"))
  ∧ ((gpus = None ∨ ∃ g, gpus = Some g ∧ Z.of_nat (length g) = n_processes) →
       ∃ self, outcome made = Ok self
         ∧ EmbeddingModels.gpus self = gpus
         ∧ EmbeddingModels.n_processes self = n_processes
         ∧ EmbeddingModels.indices self = indices
         ∧ EmbeddingModels.gpus_match self).
Proof.
  intros made. subst made. unfold EmbeddingModels.MPEmbedder_init.
  destruct gpus as [g|].
  - case_bool_decide as Hlen; simpl.
    + split; [done|]. split; [by intros ? [= <-] _|].
      intros [?|(g' & [= <-] & Heq)]; [done|]. by destruct Hlen.
    + assert (Z.of_nat (length g) = n_processes) as Heq
        by (destruct (decide (Z.of_nat (length g) = n_processes)); [done|by destruct Hlen]).
      split; [done|]. split; [by intros g' [= <-] Hne|].
      intros _. eexists. split; [done|]. simpl. by repeat split.
  - simpl. split; [done|]. split; [done|].
    intros _. eexists. split; [done|]. by repeat split.
Qed.

(** One GPU for two processes is refused, and nothing was started. *)
Lemma MPEmbedder_init_gpus_witness :
  EmbeddingModels.MPEmbedder_init "sqlite:///cord19.db" "SBioBERT" [11; 12]%Z
    (EmbeddingModels.MkPath ["embeddings"] "sbiobert" ".h5") 16 1000 2 None
    (Some [Some 0%Z]) true None None
  = MkEff [] (Raise (ValueError "One needs to specify the GPU for each process separately")).
Proof.
  pose proof (MPEmbedder_init_gpus "sqlite:///cord19.db" "SBioBERT" [11; 12]%Z
    (EmbeddingModels.MkPath ["embeddings"] "sbiobert" ".h5") 16 1000 2 None
    (Some [Some 0%Z]) true None None) as (Htrace & Hraise & _).
  specialize (Hraise [Some 0%Z] eq_refl ltac:(simpl; lia)).
  destruct (EmbeddingModels.MPEmbedder_init _ _ _ _ _ _ _ _ _ _ _ _) as [t o].
  simpl in *. by subst.
Defined.

(** C2 at a chunk of 25 sentences and a batch size of 10: the worker cuts
    the chunk into [int(25 / 10) = 2] sections, of 13 and 12 sentences, both
    longer than the batch size, and embeds and writes each of them in one
    go. *)
Theorem worker_splits_exceed_batch_size :
  EmbeddingModels.worker_splits 25 10 = Ok [seq 0 13; seq 13 12]
  ∧ (∃ batches,
       EmbeddingModels.worker_batches (Examples.ids_upto 25) 10 = Ok batches
       ∧ length <$> batches = [13; 12])
  ∧ outcome (EmbeddingModels.run_embedding_worker Examples.table_lookup
               Examples.numbered_store Examples.no_files Examples.no_paths
               Examples.loaded_length_model Examples.chunk_kwargs) = Ok tt
  ∧ EmbeddingModels.written_positions
      (trace (EmbeddingModels.run_embedding_worker Examples.table_lookup
                Examples.numbered_store Examples.no_files Examples.no_paths
                Examples.loaded_length_model Examples.chunk_kwargs))
    = [seq 0 13; seq 13 12].
Proof.
  split; [reflexivity|]. split; [eexists; split; reflexivity|].
  split; vm_compute; reflexivity.
Qed.

(** ** [get_embedding_model] *)

Section FactoryFacts.
Import EmbeddingModels.
Context (libraries : Libraries).







End FactoryFacts.


(** ** [MiningWidget.textmining_pipeline] *)

Section PipelineFacts.
Import MiningWidget.
Context (server : string → pyobj → Response) (read_csv : string → result DataFrame).

Lemma read_response_no_request (response : Response) :
  http_requests (trace (read_response read_csv response)) = [].
Proof.
  unfold read_response, mbind, eff_bind, lift, emit. simpl.
  destruct (header (headers response) "Content-Type") as [content_type|]; simpl; [|done].
  case_decide; simpl; [|done].
  by destruct (read_csv (text response)).
Qed.

Lemma textmining_pipeline_posted (url : string) (json : pyobj) :
  requests_post server url json ≫= read_response read_csv
  = MkEff (HttpPost url json :: trace (read_response read_csv (server url json)))
      (outcome (read_response read_csv (server url json))).
Proof. reflexivity. Qed.

(** C7: given a list the pipeline sends exactly one request, a POST of
    [{"identifiers": information}] to [/database]; given a string exactly
    one, a POST of [{"text": information, "debug": debug}] to [/text]; given
    anything else it raises [TypeError] and nothing has happened. *)
Theorem textmining_pipeline_request (mining_server_url : string) (debug : bool) :
  (∀ items,
     http_requests (trace (textmining_pipeline server read_csv mining_server_url
                             (PyList items) debug))
     = [(mining_server_url +:+ "/database", PyDict [("identifiers", PyList items)])])
  ∧ (∀ s,
       http_requests (trace (textmining_pipeline server read_csv mining_server_url
                               (PyStr s) debug))
       = [(mining_server_url +:+ "/text",
           PyDict [("text", PyStr s); ("debug", PyBool debug)])])
  ∧ (∀ information,
       (∀ items, information ≠ PyList items) → (∀ s, information ≠ PyStr s) →
       textmining_pipeline server read_csv mining_server_url information debug
       = MkEff [] (Raise (TypeError "Wrong type for the information!"))).
Proof.
  split; [|split].
  - intros items. unfold textmining_pipeline.
     rewrite textmining_pipeline_posted. simpl.
    by rewrite read_response_no_request.
  - intros s. unfold textmining_pipeline.
     rewrite textmining_pipeline_posted. simpl.
    by rewrite read_response_no_request.
  - intros information Hlist Hstr.
    destruct information; try reflexivity.
    + by destruct (Hstr s).
    + by destruct (Hlist items).
Qed.

(** C8, as amended: once the request is out, the answer decides.  When its
    [Content-Type] header is exactly [text/csv] the body is handed to
    [pd.read_csv], nothing is printed, and the table read is returned; when
    the header has any other value (a JSON body with the table in a field
    included) the pipeline prints the notice, the headers and the body, and
    returns no table. *)
Theorem textmining_pipeline_table (mining_server_url : string) (information : pyobj)
    (debug : bool) (request : string * pyobj) :
  let run := textmining_pipeline server read_csv mining_server_url information debug in
  let response := server request.1 request.2 in
  http_requests (trace run) = [request] →
  (header (headers response) "Content-Type" = Ok "text/csv" →
     printed (trace run) = []
     ∧ ∀ table, read_csv (text response) = Ok table → outcome run = Ok (Some table))
  ∧ (∀ content_type,
       header (headers response) "Content-Type" = Ok content_type →
       content_type ≠ "text/csv" →
       outcome run = Ok None
       ∧ printed (trace run)
         = [Print "Response content type is not text/csv.";
            PrintHeaders (headers response);
            Print (text response)]).
Proof.
  intros run response Hrequest.
  assert (∃ url json, request = (url, json)
            ∧ run = MkEff (HttpPost url json :: trace (read_response read_csv (server url json)))
                      (outcome (read_response read_csv (server url json)))) as (url & json & -> & Hrun).
  { subst run. destruct information; try discriminate Hrequest.
    - unfold textmining_pipeline in *. 
      rewrite textmining_pipeline_posted in *. simpl in Hrequest.
      rewrite read_response_no_request in Hrequest. injection Hrequest as <-. eauto.
    - unfold textmining_pipeline in *. 
      rewrite textmining_pipeline_posted in *. simpl in Hrequest.
      rewrite read_response_no_request in Hrequest. injection Hrequest as <-. eauto. }
  subst response. simpl. rewrite Hrun. simpl.
  unfold read_response, mbind, eff_bind, lift, emit.
  split.
  - intros ->. simpl.
    destruct (read_csv (text (server url json))) as [table|e]; simpl.
    + split; [done|]. by intros ? [= <-].
    + split; [done|]. intros ? [=].
  - intros content_type -> Hother. simpl. by case_decide.
Qed.

End PipelineFacts.

(** A string is posted to [/text] and a number is refused without any
    request. *)
Lemma textmining_pipeline_request_witness :
  MiningWidget.http_requests
    (trace (MiningWidget.textmining_pipeline Examples.csv_server Examples.plain_read_csv
              "http://test" (MiningWidget.PyStr "HELLO") false))
  = [("http://test/text",
      MiningWidget.PyDict [("text", MiningWidget.PyStr "HELLO");
                           ("debug", MiningWidget.PyBool false)])]
  ∧ MiningWidget.textmining_pipeline Examples.csv_server Examples.plain_read_csv
      "http://test" (MiningWidget.PyInt 3) false
    = MkEff [] (Raise (TypeError "Wrong type for the information!")).
Proof.
  pose proof (textmining_pipeline_request Examples.csv_server Examples.plain_read_csv
                "http://test" false) as (_ & Hstr & Hother).
  split.
  - exact (Hstr "HELLO").
  - apply Hother; discriminate.
Defined.

(** The CSV answer of the example server is parsed into the table. *)
Lemma textmining_pipeline_table_witness :
  outcome (MiningWidget.textmining_pipeline Examples.csv_server Examples.plain_read_csv
             "http://test" (MiningWidget.PyStr "HELLO") false)
  = Ok (Some Examples.extractions_table).
Proof.
  apply (textmining_pipeline_table Examples.csv_server Examples.plain_read_csv
           "http://test" (MiningWidget.PyStr "HELLO") false
           ("http://test/text",
            MiningWidget.PyDict [("text", MiningWidget.PyStr "HELLO");
                                 ("debug", MiningWidget.PyBool false)])).
  - reflexivity.
  - reflexivity.
  - reflexivity.
Defined.

(** C8 as stated fails for the answer of the widget tests: a JSON body that
    holds the table in a field, sent as [application/json], gives no table;
    the body is printed instead. *)
Lemma textmining_pipeline_json_no_table :
  MiningWidget.textmining_pipeline Examples.json_server Examples.plain_read_csv
    "http://test" (MiningWidget.PyStr "HELLO") false
  = MkEff
      [MiningWidget.HttpPost "http://test/text"
         (MiningWidget.PyDict [("text", MiningWidget.PyStr "HELLO");
                               ("debug", MiningWidget.PyBool false)]);
       MiningWidget.Print "Response content type is not text/csv.";
       MiningWidget.PrintHeaders
         [("request-id", "1234abcdeABCDE"); ("Content-Type", "application/json")];
       MiningWidget.Print Examples.extractions_json]
      (Ok None).
Proof. reflexivity. Qed.

(** ** [MiningWidget.get_extracted_table] *)

Section TableFacts.
Import MiningWidget.
Implicit Types heap : gmap loc DataFrame.

Lemma alloc_fresh (d : DataFrame) heap :
  heap !! (alloc d heap).1 = None
  ∧ (alloc d heap).2 !! (alloc d heap).1 = Some d
  ∧ ∀ l, is_Some (heap !! l) → (alloc d heap).2 !! l = heap !! l.
Proof.
  unfold alloc. simpl.
  assert (heap !! fresh (dom heap) = None) as Hfresh
    by apply not_elem_of_dom, is_fresh.
  split; [done|]. split; [apply lookup_insert_eq|].
  intros l [d' Hl]. apply lookup_insert_ne. intros <-. congruence.
Qed.

(** C9: [get_extracted_table] returns a new object: a copy of the stored
    table when the widget has one, an empty table when it has none.  The
    stored table is the same before and after the call, and whatever is then
    done to the returned object, the stored table stays what it was. *)
Theorem get_extracted_table_copy (self : Widget) heap :
  (∀ l, table_extractions self = Some l → is_Some (heap !! l)) →
  ∃ results_table heap',
    get_extracted_table self heap = Some (results_table, heap')
    ∧ heap !! results_table = None
    ∧ table_extractions self ≠ Some results_table
    ∧ heap' !! results_table = Some (default empty_DataFrame (stored_table self heap))
    ∧ stored_table self heap' = stored_table self heap
    ∧ ∀ d, stored_table self (mutate results_table d heap') = stored_table self heap.
Proof.
  intros Hwf. unfold get_extracted_table, DataFrame_copy, stored_table.
  destruct (table_extractions self) as [l|] eqn:Hl; simpl.
  - destruct (Hwf l eq_refl) as [d Hd]. rewrite Hd. simpl.
    destruct (alloc_fresh d heap) as (Hnone & Hnew & Hold).
    exists (alloc d heap).1, (alloc d heap).2.
    assert (l ≠ (alloc d heap).1) as Hne by (intros ->; congruence).
    split; [by destruct (alloc d heap)|]. split; [done|].
    split; [congruence|]. split; [done|].
    split; [rewrite Hold; by eauto|].
    intros d'. unfold mutate. rewrite lookup_insert_ne by done.
    rewrite Hold; by eauto.
  - destruct (alloc_fresh empty_DataFrame heap) as (Hnone & Hnew & _).
    exists (alloc empty_DataFrame heap).1, (alloc empty_DataFrame heap).2.
    split; [by destruct (alloc empty_DataFrame heap)|]. by repeat split.
Qed.

End TableFacts.

(** A widget holding the table of the tests at location 1: the table
    returned is a copy at a new location, and emptying it leaves the stored
    table alone.  A widget just made returns an empty table. *)
Lemma get_extracted_table_copy_witness :
  (∃ results_table heap',
     MiningWidget.get_extracted_table (MiningWidget.MkWidget "http://test" (Some 1%positive) "HELLO")
       {[ 1%positive := Examples.extractions_table ]} = Some (results_table, heap')
     ∧ heap' !! results_table = Some Examples.extractions_table
     ∧ MiningWidget.stored_table (MiningWidget.MkWidget "http://test" (Some 1%positive) "HELLO")
         (MiningWidget.mutate results_table MiningWidget.empty_DataFrame heap')
       = Some Examples.extractions_table)
  ∧ (∃ results_table heap',
       MiningWidget.get_extracted_table (MiningWidget.MiningWidget_init "http://test" "HELLO") ∅
       = Some (results_table, heap')
       ∧ heap' !! results_table = Some MiningWidget.empty_DataFrame).
Proof.
  split.
  - destruct (get_extracted_table_copy
                (MiningWidget.MkWidget "http://test" (Some 1%positive) "HELLO")
                {[ 1%positive := Examples.extractions_table ]})
      as (results_table & heap' & Hget & _ & _ & Hcopy & _ & Hkeep).
    + intros l [= <-]. exists Examples.extractions_table. reflexivity.
    + exists results_table, heap'. split; [exact Hget|]. split.
      * exact Hcopy.
      * apply Hkeep.
  - destruct (get_extracted_table_copy (MiningWidget.MiningWidget_init "http://test" "HELLO") ∅)
      as (results_table & heap' & Hget & _ & _ & Hcopy & _).
    + intros l [=].
    + exists results_table, heap'. split; [exact Hget|exact Hcopy].
Defined.

(** ** Further properties of the embedder *)

Section WorkerFacts.
Import EmbeddingModels.

Lemma Forall_replicate_le (m size k : nat) :
  (0 < k → size ≤ m) → Forall (λ s, s ≤ m) (replicate k size).
Proof.
  intros H. destruct k; [constructor|]. apply Forall_replicate. apply H. lia.
Qed.

Lemma section_sizes_le (n k m : nat) :
  0 < k →
  n `div` k + (if decide (n `mod` k = 0) then 0 else 1) ≤ m →
  Forall (λ size, size ≤ m) (section_sizes n k).
Proof.
  intros Hk Hm. unfold section_sizes. cbv zeta. apply Forall_app. split.
  - apply Forall_replicate_le. intros Hpos. case_decide; lia.
  - apply Forall_replicate_le. intros _. case_decide; lia.
Qed.

Lemma split_at_sizes_le {A} (sizes : list nat) (ary : list A) (m : nat) :
  Forall (λ size, size ≤ m) sizes →
  Forall (λ section, length section ≤ m) (split_at_sizes sizes ary).
Proof.
  intros Hsizes. revert ary. induction Hsizes as [|size sizes Hsize _ IH]; intros ary; simpl.
  - constructor.
  - constructor; [|apply IH]. rewrite length_take. lia.
Qed.

(** The rounded-down number of sections makes a section at most
    [2 * batch_size - 1] long. *)
Lemma worker_section_bound (n b : nat) :
  0 < b → b ≤ n →
  n `div` (n `div` b)
  + (if decide (n `mod` (n `div` b) = 0) then 0 else 1) ≤ 2 * b - 1.
Proof.
  intros Hb Hn.
  pose proof (Nat.div_mod_eq n b) as Hnb.
  pose proof (Nat.mod_upper_bound n b ltac:(lia)) as Hrb.
  assert (0 < n `div` b) as Hq by (apply Nat.div_str_pos; lia).
  set (q := n `div` b) in *.
  pose proof (Nat.div_mod_eq n q) as Hnq.
  pose proof (Nat.mod_upper_bound n q ltac:(lia)) as Hrq.
  set (d := n `div` q) in *. set (r := n `mod` q) in *. set (r' := n `mod` b) in *.
  assert (b ≤ b * q) as Hbq by nia.
  case_decide as Hmod.
  - destruct (decide (d < 2 * b)) as [|Hge]; [lia|exfalso].
    assert (q * (2 * b) ≤ q * d) by (apply Nat.mul_le_mono_l; lia). lia.
  - destruct (decide (d + 1 < 2 * b)) as [|Hge]; [lia|exfalso].
    assert (q * (2 * b - 1) ≤ q * d) by (apply Nat.mul_le_mono_l; lia).
    assert (q * (2 * b - 1) = 2 * (b * q) - q) as Heq by nia.
    assert (0 < r) by lia.
    destruct (decide (b = 1)) as [->|]; [|nia].
    assert (q = n) as Hqn by lia.
    apply Hmod. subst r. rewrite Hqn. apply Nat.Div0.mod_same.
Qed.

End WorkerFacts.

Section WorkerBatches.
Import EmbeddingModels.

Lemma take_positions_spec (indices : list Z) (pos_indices : list nat) :
  Forall (λ p, p < length indices) pos_indices →
  ∃ batch_indices,
    take_positions indices pos_indices = Ok batch_indices
    ∧ Forall2 (λ p x, indices !! p = Some x) pos_indices batch_indices.
Proof.
  intros Hpos. unfold take_positions.
  destruct (mapM (λ p, indices !! p) pos_indices) as [batch|] eqn:Hm.
  - exists batch. split; [done|]. by apply mapM_Some_1.
  - exfalso. apply mapM_None_1 in Hm. apply Exists_exists in Hm as (p & Hp & Hnone).
    rewrite Forall_forall in Hpos. apply Hpos in Hp.
    apply lookup_ge_None in Hnone. lia.
Qed.

Lemma mapM_take_positions (indices : list Z) (splits : list (list nat)) :
  Forall (Forall (λ p, p < length indices)) splits →
  ∃ batches,
    mapM (take_positions indices) splits = Ok batches
    ∧ Forall2 (Forall2 (λ p x, indices !! p = Some x)) splits batches.
Proof.
  induction 1 as [|split splits Hsplit _ (batches & Hrest & Hall)]; simpl.
  - by exists [].
  - destruct (take_positions_spec indices split Hsplit) as (batch & Hbatch & Hb).
    exists (batch :: batches). split; [|by constructor].
    rewrite Hbatch. simpl. rewrite Hrest. reflexivity.
Qed.

Lemma Forall2_concat_lookup (indices : list Z) (splits : list (list nat))
    (batches : list (list Z)) :
  Forall2 (Forall2 (λ p x, indices !! p = Some x)) splits batches →
  Forall2 (λ p x, indices !! p = Some x) (concat splits) (concat batches)
  ∧ length <$> batches = length <$> splits.
Proof.
  induction 1 as [|split batch splits batches Hb _ [IH1 IH2]]; simpl; [done|].
  split; [by apply Forall2_app|].
  f_equal; [|done]. symmetry. by eapply Forall2_length.
Qed.

Lemma lookup_seq_all (indices batch : list Z) :
  Forall2 (λ p x, indices !! p = Some x) (seq 0 (length indices)) batch →
  batch = indices.
Proof.
  intros Hall. apply list_eq. intros i.
  pose proof (Forall2_length _ _ _ Hall) as Hlen. rewrite length_seq in Hlen.
  destruct (decide (i < length indices)) as [Hi|Hi].
  - destruct (lookup_lt_is_Some_2 batch i ltac:(lia)) as [x Hx].
    rewrite Hx. symmetry.
    eapply (Forall2_lookup_lr _ _ _ i i x) in Hall; [done| |done].
    by apply lookup_seq.
  - rewrite !lookup_ge_None_2; [done|lia|lia].
Qed.

(** The positions a worker cuts its chunk into: they cover the chunk once,
    in order, no run is empty, and a run is shorter than twice the batch
    size. *)
Lemma worker_splits_spec (n : nat) (batch_size : Z) :
  0 < n → (0 < batch_size)%Z →
  ∃ splits,
    worker_splits n batch_size = Ok splits
    ∧ concat splits = seq 0 n
    ∧ Forall (λ split, split ≠ [] ∧ (Z.of_nat (length split) < 2 * batch_size)%Z) splits.
Proof.
  intros Hn Hbs. unfold worker_splits, int_truediv. cbv zeta.
  set (b := Z.to_nat (Z.min (Z.of_nat n) batch_size)).
  assert (0 < b ≤ n) as [Hb Hbn] by lia.
  replace (Z.min (Z.of_nat n) batch_size) with (Z.of_nat b) by lia.
  destruct (Z.eqb_spec (Z.of_nat b) 0) as [?|_]; [lia|]. simpl.
  rewrite Z.quot_div_nonneg, <- Nat2Z.inj_div by lia.
  assert (0 < n `div` b) as Hq by (apply Nat.div_str_pos; lia).
  unfold array_split.
  destruct (Z.leb_spec (Z.of_nat (n `div` b)) 0) as [?|_]; [lia|]. simpl.
  rewrite Nat2Z.id, length_seq.
  eexists. split; [done|]. split.
  - rewrite concat_filter_nonempty, split_at_sizes_concat, section_sizes_sum by done.
    apply take_ge. by rewrite length_seq.
  - apply Forall_forall. intros split [Hne Hin]%list_elem_of_filter.
    split; [intros ->; simpl in Hne; lia|].
    pose proof (split_at_sizes_le (section_sizes n (n `div` b)) (seq 0 n) (2 * b - 1)
                  (section_sizes_le _ _ _ Hq (worker_section_bound n b Hb Hbn))) as Hle.
    rewrite Forall_forall in Hle. specialize (Hle split Hin).
    simpl in Hle. lia.
Qed.

End WorkerBatches.

Section WorkerBatchFacts.
Import EmbeddingModels.

(** X1: the sub-batches of a worker.  Every sentence id of a non-empty chunk is
    in exactly one sub-batch (put end to end, in order, the sub-batches are
    the chunk), no sub-batch is empty, and a sub-batch holds fewer than
    [2 * batch_size] ids. *)
Theorem worker_batches_partition (indices : list Z) (batch_size : Z) :
  indices ≠ [] → (0 < batch_size)%Z →
  ∃ batches,
    worker_batches indices batch_size = Ok batches
    ∧ concat batches = indices
    ∧ Forall (λ batch, batch ≠ [] ∧ (Z.of_nat (length batch) < 2 * batch_size)%Z) batches.
Proof.
  intros Hne Hbs.
  assert (0 < length indices) as Hn by (destruct indices; [done|simpl; lia]).
  destruct (worker_splits_spec (length indices) batch_size Hn Hbs)
    as (splits & Hsplits & Hconcat & Hbounds).
  destruct (mapM_take_positions indices splits) as (batches & Hbatches & Hall).
  { apply Forall_forall. intros split Hsplit. apply Forall_forall. intros p Hp.
    assert (p ∈ concat splits) as Hin.
    { apply list_elem_of_In, in_concat. exists split. by rewrite <- !list_elem_of_In. }
    rewrite Hconcat in Hin. apply elem_of_seq in Hin. lia. }
  exists batches. unfold worker_batches. rewrite Hsplits.
  split; [by destruct indices|].
  destruct (Forall2_concat_lookup indices splits batches Hall) as [Hlookup _].
  rewrite Hconcat in Hlookup. split; [by apply lookup_seq_all|].
  clear Hbatches Hlookup Hconcat Hsplits.
  induction Hall as [|split batch splits batches Hb _ IH]; [constructor|].
  inversion Hbounds as [|? ? [Hnil Hlen] Hrest]; subst.
  constructor; [|by apply IH].
  apply Forall2_length in Hb. split; [|lia].
  intros ->. destruct split; [done|discriminate].
Qed.

(** Twenty-five ids in sub-batches for a batch size of ten. *)
Lemma worker_batches_partition_witness :
  ∃ batches,
    worker_batches (Examples.ids_upto 25) 10 = Ok batches
    ∧ concat batches = Examples.ids_upto 25.
Proof.
  destruct (worker_batches_partition (Examples.ids_upto 25) 10)
    as (batches & Hrun & Hconcat & _).
  - discriminate.
  - lia.
  - by exists batches.
Defined.

(** X3: the temporary files of the workers are pairwise different. *)
Theorem temp_h5_paths_distinct (output_folder : list string) (output : Path) (n : nat) :
  NoDup (temp_h5_path output_folder output <$> seq 0 n).
Proof.
  apply NoDup_fmap_2, NoDup_seq.
  intros i j Heq. unfold temp_h5_path in Heq. injection Heq as Heq.
  apply (inj (String.app (stem output))) in Heq.
  apply (inj (String.app "_temp")) in Heq.
  by apply (inj pretty) in Heq.
Qed.

End WorkerBatchFacts.

(** X2: with the default methods of the base class every row of the array
    is the embedding of one sentence, and the rows follow the retrieved
    sentences one by one, as the ids do. *)
Theorem compute_database_embeddings_default_rows {E P1 Connection : Type}
    (retrieve : list Z → Connection → list EmbeddingModels.Sentence)
    (d : nat) (preprocess : string → P1) (embed : P1 → list E)
    (connection : Connection) (indices : list Z) (batch_size : Z) :
  (∀ p, length (embed p) = d) →
  (0 < batch_size)%Z →
  retrieve indices connection ≠ [] →
  EmbeddingModels.compute_database_embeddings retrieve
    (EmbeddingModels.default_model d preprocess embed) connection indices batch_size
  = Ok (NdArray (E:=E) [length (retrieve indices connection); d]
          (concat ((λ s, embed (preprocess (EmbeddingModels.text s)))
                     <$> retrieve indices connection)),
        EmbeddingModels.sentence_id <$> retrieve indices connection).
Proof.
  intros Hd Hpos Hne.
  rewrite compute_database_embeddings_ok;
    [|done|by apply default_model_embeds_rows|done].
  simpl. do 3 f_equal.
  rewrite <- (consecutive_batches_concat (Z.to_nat batch_size) (retrieve indices connection))
    at 2 by lia.
  generalize (EmbeddingModels.consecutive_batches (Z.to_nat batch_size)
                (retrieve indices connection)).
  intros batches. induction batches as [|batch batches IH]; simpl; [done|].
  rewrite fmap_app, concat_app, <- IH. f_equal.
  unfold EmbeddingModels.embed_batch. simpl.
  rewrite <- !list_fmap_compose. by destruct batch.
Qed.

(** Three sentences embedded one by one. *)
Lemma compute_database_embeddings_default_rows_witness :
  EmbeddingModels.compute_database_embeddings Examples.table_lookup Examples.length_model
    (Examples.numbered_table 3) (Examples.ids_upto 3) 2
  = Ok (NdArray [3; 2] [10; 0; 10; 0; 10; 0]%Z, [1; 2; 3]%Z).
Proof.
  apply (compute_database_embeddings_default_rows Examples.table_lookup 2
           (λ raw_sentence, raw_sentence)
           (λ sentence, [Z.of_nat (String.length sentence); 0%Z])
           (Examples.numbered_table 3) (Examples.ids_upto 3) 2).
  - intros p. reflexivity.
  - lia.
  - discriminate.
Defined.

(** ** The table after a click *)

Section ClickFacts.
Import MiningWidget.
Context (in_ipython : bool).
Context (server : string → pyobj → Response) (read_csv : string → result DataFrame).

(** A click on "Mine This Text!", step by step: the output is cleared, the
    text is posted, and the reading of the answer decides what follows. *)
Lemma mine_text_clicked_run (self : Widget) (heap : gmap loc DataFrame) :
  let url := mining_server_url self +:+ "/text" in
  let json := PyDict [("text", PyStr (input_text self)); ("debug", PyBool false)] in
  let read := read_response read_csv (server url json) in
  mine_text_clicked in_ipython server read_csv self heap
  = match outcome read with
    | Ok table =>
      MkEff (ClearOutput :: HttpPost url json :: trace read ++ [Display table])
        (Ok (set_table_extractions self table heap))
    | Raise e =>
      if in_ipython
      then MkEff (ClearOutput :: HttpPost url json :: trace read ++ [ShowTraceback e])
             (Ok (self, heap))
      else MkEff (ClearOutput :: HttpPost url json :: trace read) (Raise e)
    end.
Proof.
  intros url json read.
  unfold mine_text_clicked, textmining_pipeline. cbv zeta.
  rewrite (textmining_pipeline_posted server read_csv). fold url json read.
  unfold mbind, eff_bind, with_output, emit, mret, eff_ret. cbn [trace outcome].
  destruct (outcome read) as [table|e]; [|destruct in_ipython];
    simpl; by rewrite ?app_nil_r.
Qed.

(** X4: after a click on "Mine This Text!" that the server answers with
    [text/csv], the widget holds the table read from the answer, and
    [get_extracted_table] returns a copy of it in an object of its own, so
    that no change of the copy reaches the stored table. *)
Theorem mine_text_then_get_table (self : Widget) (heap : gmap loc DataFrame)
    (table : DataFrame) :
  let response :=
    server (mining_server_url self +:+ "/text")
      (PyDict [("text", PyStr (input_text self)); ("debug", PyBool false)]) in
  header (headers response) "Content-Type" = Ok "text/csv" →
  read_csv (text response) = Ok table →
  ∃ self' heap1 results_table heap2,
    outcome (mine_text_clicked in_ipython server read_csv self heap) = Ok (self', heap1)
    ∧ stored_table self' heap1 = Some table
    ∧ get_extracted_table self' heap1 = Some (results_table, heap2)
    ∧ heap2 !! results_table = Some table
    ∧ table_extractions self' ≠ Some results_table
    ∧ ∀ d, stored_table self' (mutate results_table d heap2) = Some table.
Proof.
  intros response Hcsv Hread.
  rewrite mine_text_clicked_run. cbv zeta. fold response.
  unfold read_response. rewrite Hcsv, Hread.
  unfold mbind, eff_bind, lift, emit, mret, eff_ret. simpl.
  destruct (alloc_fresh table heap) as (Hnone & Hnew & Hold).
  destruct (alloc_fresh table (alloc table heap).2) as (Hnone2 & Hnew2 & Hold2).
  unfold alloc in *. simpl in *.
  set (l := fresh (dom heap)) in *. set (heap1 := <[l:=table]> heap) in *.
  set (l' := fresh (dom heap1)) in *.
  assert (l ≠ l') as Hne by (intros Heq; rewrite <- Heq in Hnone2; congruence).
  eexists _, heap1, l', (<[l':=table]> heap1).
  split; [reflexivity|]. unfold stored_table, get_extracted_table, DataFrame_copy, alloc.
  simpl. fold l. rewrite Hnew. simpl. fold l'.
  split; [done|]. split; [done|]. split; [done|].
  split; [congruence|].
  intros d. unfold mutate. rewrite lookup_insert_ne by done.
  rewrite Hold2; by eauto.
Qed.

End ClickFacts.

(** The click on the example server, then the copy. *)
Lemma mine_text_then_get_table_witness :
  ∃ self' heap1 results_table heap2,
    outcome (MiningWidget.mine_text_clicked true Examples.csv_server
               Examples.plain_read_csv
               (MiningWidget.MiningWidget_init "http://test" "HELLO") ∅)
    = Ok (self', heap1)
    ∧ MiningWidget.get_extracted_table self' heap1 = Some (results_table, heap2)
    ∧ heap2 !! results_table = Some Examples.extractions_table
    ∧ MiningWidget.table_extractions self' ≠ Some results_table.
Proof.
  destruct (mine_text_then_get_table true Examples.csv_server Examples.plain_read_csv
              (MiningWidget.MiningWidget_init "http://test" "HELLO") ∅
              Examples.extractions_table)
    as (self' & heap1 & results_table & heap2 & Hclick & _ & Hget & Hcopy & Hne & _).
  - reflexivity.
  - reflexivity.
  - by exists self', heap1, results_table, heap2.
Defined.

(** ** What a worker writes *)

Section WorkerRun.
Import EmbeddingModels.
Context {E P Connection : Type}.
Context (retrieve : list Z → Connection → list Sentence) (create_engine : string → Connection).
Context (libraries : Libraries) (path_exists : Path → bool).
Context (loaded : Model → EmbeddingModel E P).



End WorkerRun.


(** ** Batch sizes that are no sizes *)

Section BatchSizeFacts.
Import EmbeddingModels.
Context {E P Connection : Type}.
Context (retrieve : list Z → Connection → list Sentence) (model : EmbeddingModel E P).

(** With a negative batch size the loop does not run at all. *)
Lemma embedding_loop_negative (sentences : list Sentence) (batch_size : Z) :
  (batch_size < 0)%Z → sentences ≠ [] →
  embedding_loop model sentences batch_size = Ok ([], []).
Proof.
  intros Hneg Hne. unfold embedding_loop, floordiv.
  destruct (Z.eqb_spec batch_size 0) as [?|_]; [lia|]. simpl.
  assert (0 < length sentences) as Hn by (destruct sentences; [done|simpl; lia]).
  assert (Z.of_nat (length sentences) / batch_size < 0)%Z as Hq.
  { pose proof (Z.div_mod (Z.of_nat (length sentences)) batch_size ltac:(lia)) as Hdm.
    pose proof (Z.mod_neg_bound (Z.of_nat (length sentences)) batch_size Hneg) as Hr.
    nia. }
  unfold range. replace (Z.to_nat _) with 0 by lia. reflexivity.
Qed.

(** X6: a batch size of zero makes [compute_database_embeddings] fail with
    [ZeroDivisionError] whatever the request, and a negative batch size makes
    it fail with the error of stacking no array whenever the store returns a
    sentence: in neither case is anything embedded. *)
Theorem compute_database_embeddings_bad_batch_size connection indices :
  compute_database_embeddings retrieve model connection indices 0
  = Raise (ZeroDivisionError "integer division or modulo by zero")
  ∧ ∀ batch_size, (batch_size < 0)%Z → retrieve indices connection ≠ [] →
      compute_database_embeddings retrieve model connection indices batch_size
      = Raise (ValueError "need at least one array to concatenate").
Proof.
  split; [reflexivity|].
  intros batch_size Hneg Hne. unfold compute_database_embeddings.
  by rewrite embedding_loop_negative.
Qed.

End BatchSizeFacts.

(** Three sentences and a batch size of minus two. *)
Lemma compute_database_embeddings_bad_batch_size_witness :
  EmbeddingModels.compute_database_embeddings Examples.table_lookup Examples.length_model
    (Examples.numbered_table 3) (Examples.ids_upto 3) (-2)
  = Raise (ValueError "need at least one array to concatenate").
Proof.
  apply (compute_database_embeddings_bad_batch_size Examples.table_lookup
           Examples.length_model (Examples.numbered_table 3) (Examples.ids_upto 3)).
  - lia.
  - discriminate.
Defined.

(** ** The sizes of chunks and sub-batches *)

Section SizeFacts.
Import EmbeddingModels.

(** When the sizes use up the array, every section has its size. *)
Lemma split_at_sizes_lengths {A} (sizes : list nat) (ary : list A) :
  sum_list sizes ≤ length ary →
  length <$> split_at_sizes sizes ary = sizes.
Proof.
  revert ary. induction sizes as [|n sizes IH]; intros ary Hsum; simpl in *; [done|].
  rewrite length_take, IH by (rewrite length_drop; lia). f_equal. lia.
Qed.

Lemma split_at_replicate {A} (k b : nat) (ary : list A) (a : nat) :
  split_at_sizes (replicate k b) (drop (a * b) ary) = batch_at ary b <$> seq a k.
Proof.
  revert a. induction k as [|k IH]; intros a; simpl; [done|].
  unfold batch_at at 1. f_equal.
  rewrite drop_drop. replace (a * b + b) with (S a * b) by lia. apply IH.
Qed.

Lemma filter_nonempty_all {A} (ls : list (list A)) :
  Forall (λ x, x ≠ []) ls → filter (λ x, 0 < length x) ls = ls.
Proof.
  induction 1 as [|x ls Hx _ IH]; [done|].
  rewrite filter_cons, IH. case_decide as Hlen; [done|].
  destruct x; [done|simpl in Hlen; lia].
Qed.

(** X7: when the batch size divides the size of a worker's chunk, the
    sub-batches are the consecutive batches of [batch_size] positions, each
    of exactly that length; and when the batch size is at least the size of
    the chunk, the chunk is one sub-batch. *)
Theorem worker_splits_exact (n : nat) (batch_size : Z) :
  0 < n →
  (0 < batch_size)%Z →
  ((Z.of_nat n `mod` batch_size = 0)%Z →
     worker_splits n batch_size
     = Ok (consecutive_batches (Z.to_nat batch_size) (seq 0 n))
     ∧ Forall (λ split, Z.of_nat (length split) = batch_size)
         (consecutive_batches (Z.to_nat batch_size) (seq 0 n)))
  ∧ ((Z.of_nat n ≤ batch_size)%Z → worker_splits n batch_size = Ok [seq 0 n]).
Proof.
  intros Hn Hbs. split.
  - intros Hmod. set (b := Z.to_nat batch_size).
    assert (0 < b) as Hb by lia.
    assert (n `mod` b = 0) as Hmodn.
    { apply Nat2Z.inj. rewrite Nat2Z.inj_mod. unfold b. rewrite Z2Nat.id by lia. done. }
    pose proof (Nat.div_mod_eq n b) as Hdm. rewrite Hmodn, Nat.add_0_r in Hdm.
    set (k := n `div` b) in *.
    assert (0 < k) as Hk by (destruct k; lia).
    assert (b ≤ n) as Hbn by nia.
    assert (consecutive_batches b (seq 0 n) = batch_at (seq 0 n) b <$> seq 0 k) as Hcb.
    { unfold consecutive_batches. rewrite length_seq, Hmodn. fold k.
      rewrite decide_True by done. by rewrite Nat.add_0_r. }
    split.
    + unfold worker_splits, int_truediv. cbv zeta.
      replace (Z.min (Z.of_nat n) batch_size) with (Z.of_nat b) by lia.
      destruct (Z.eqb_spec (Z.of_nat b) 0) as [?|_]; [lia|]. simpl.
      rewrite Z.quot_div_nonneg, <- Nat2Z.inj_div by lia. fold k.
      unfold array_split.
      destruct (Z.leb_spec (Z.of_nat k) 0) as [?|_]; [lia|]. simpl.
      rewrite Nat2Z.id, length_seq. unfold section_sizes. cbv zeta.
      assert (n `div` k = b) as -> by (rewrite Hdm; apply Nat.div_mul; lia).
      assert (n `mod` k = 0) as -> by (rewrite Hdm; apply Nat.Div0.mod_mul).
      simpl. rewrite Nat.sub_0_r.
      pose proof (split_at_replicate k b (seq 0 n) 0) as Hsplit.
      rewrite Nat.mul_0_l, drop_0 in Hsplit. rewrite Hsplit, Hcb.
      f_equal. apply filter_nonempty_all.
      rewrite <- Hcb. eapply Forall_impl; [apply consecutive_batches_bounds; lia|].
      by intros ? [? _].
    + rewrite Hcb. apply Forall_fmap, Forall_forall. intros i Hi.
      apply elem_of_seq in Hi. simpl. unfold batch_at.
      rewrite length_take, length_drop, length_seq. nia.
  - intros Hle. unfold worker_splits, int_truediv. cbv zeta.
    replace (Z.min (Z.of_nat n) batch_size) with (Z.of_nat n) by lia.
    destruct (Z.eqb_spec (Z.of_nat n) 0) as [?|_]; [lia|]. simpl.
    rewrite Z.quot_same by lia. unfold array_split.
    destruct (Z.leb_spec 1 0) as [?|_]; [lia|]. unfold mbind, result_bind.
    rewrite length_seq. change (Z.to_nat 1) with 1.
    unfold section_sizes. cbv zeta. rewrite Nat.mod_1_r, Nat.div_1_r.
    change (replicate 0 (S n) ++ replicate (1 - 0) n) with [n].
    unfold split_at_sizes. rewrite take_ge by (rewrite length_seq; lia).
    rewrite filter_cons, decide_True by (rewrite length_seq; lia).
    reflexivity.
Qed.

End SizeFacts.

(** Twenty sentences in batches of ten, and five sentences with room for
    sixteen. *)
Lemma worker_splits_exact_witness :
  EmbeddingModels.worker_splits 20 10 = Ok [seq 0 10; seq 10 10]
  ∧ EmbeddingModels.worker_splits 5 16 = Ok [seq 0 5].
Proof.
  split.
  - apply (worker_splits_exact 20 10); [lia|lia|reflexivity].
  - apply (worker_splits_exact 5 16); [lia|lia|lia].
Defined.

Section ChunkFacts.
Import EmbeddingModels.
Context (H5_concatenate : Path → string → list Path → bool → Z → result unit).

Lemma filter_replicate {A} (P : A → Prop) `{∀ x, Decision (P x)} (m : nat) (x : A) :
  filter P (replicate m x) = if decide (P x) then replicate m x else [].
Proof.
  induction m as [|m IH]; simpl; [by case_decide|].
  rewrite filter_cons, IH. by case_decide.
Qed.

Lemma length_filter_nonempty {A} (ls : list (list A)) :
  length (filter (λ x, 0 < length x) ls) = length (filter (λ s, 0 < s) (length <$> ls)).
Proof.
  induction ls as [|x ls IH]; [done|].
  rewrite fmap_cons, !filter_cons. repeat case_decide; simpl; lia.
Qed.

(** The number of sections that hold anything. *)
Lemma section_sizes_nonzero (n k : nat) :
  0 < k → length (filter (λ s, 0 < s) (section_sizes n k)) = k `min` n.
Proof.
  intros Hk. unfold section_sizes. cbv zeta.
  pose proof (Nat.div_mod_eq n k) as Hdm.
  pose proof (Nat.mod_upper_bound n k ltac:(lia)) as Hr.
  rewrite filter_app, !filter_replicate, length_app.
  rewrite decide_True by lia. rewrite length_replicate.
  case_decide as Hq; simpl.
  - rewrite length_replicate. nia.
  - assert (n `div` k = 0) as Hq0 by lia. rewrite Hq0 in Hdm. lia.
Qed.

(** X8: for a positive number of processes, [do_embedding] hands out
    [min(n_processes, len(indices))] chunks, and the chunks are balanced:
    each holds [len(indices) // n_processes] sentence ids or one more. *)
Theorem embedding_splits_balanced (indices : list Z) (n_processes : Z) :
  (0 < n_processes)%Z →
  ∃ chunks,
    embedding_splits indices n_processes = Ok chunks
    ∧ length chunks = Z.to_nat n_processes `min` length indices
    ∧ Forall (λ chunk, length indices `div` Z.to_nat n_processes ≤ length chunk
                       ≤ S (length indices `div` Z.to_nat n_processes)) chunks.
Proof.
  intros Hpos. unfold embedding_splits, array_split.
  destruct (Z.leb_spec n_processes 0) as [?|_]; [lia|]. simpl.
  set (k := Z.to_nat n_processes). assert (0 < k) as Hk by lia.
  set (sections := split_at_sizes (section_sizes (length indices) k) indices).
  assert (length <$> sections = section_sizes (length indices) k) as Hlen.
  { apply split_at_sizes_lengths. by rewrite section_sizes_sum. }
  eexists. split; [done|]. split.
  - by rewrite length_filter_nonempty, Hlen, section_sizes_nonzero.
  - apply Forall_forall. intros chunk [_ Hin]%list_elem_of_filter.
    assert (length chunk ∈ section_sizes (length indices) k) as Hsize.
    { rewrite <- Hlen. apply list_elem_of_fmap. eauto. }
    unfold section_sizes in Hsize. cbv zeta in Hsize.
    apply elem_of_app in Hsize as [Hs|Hs]; apply elem_of_replicate in Hs as [-> _]; lia.
Qed.

(** X9: with a number of processes that is zero or negative, [do_embedding]
    creates the two folders and then fails with [ValueError]: no worker is
    started and nothing is concatenated. *)
Theorem do_embedding_no_processes (self : MPEmbedder) :
  (n_processes self ≤ 0)%Z →
  do_embedding H5_concatenate self
  = MkEff [Mkdir (parent (h5_path_output self));
           Mkdir (default (parent (h5_path_output self)) (temp_folder self))]
      (Raise (ValueError "number sections must be larger than 0.")).
Proof.
  intros Hle. unfold do_embedding, embedding_splits, array_split.
  destruct (Z.leb_spec (n_processes self) 0) as [_|?]; [|lia].
  reflexivity.
Qed.

End ChunkFacts.

(** Seven sentences for three processes, and the same for none. *)
Lemma embedding_splits_balanced_witness :
  ∃ chunks,
    EmbeddingModels.embedding_splits (Examples.ids_upto 7) 3 = Ok chunks
    ∧ length chunks = 3
    ∧ Forall (λ chunk, 2 ≤ length chunk ≤ 3) chunks.
Proof.
  destruct (embedding_splits_balanced (Examples.ids_upto 7) 3) as (chunks & H1 & H2 & H3).
  - lia.
  - exists chunks. split; [exact H1|]. split; [exact H2|exact H3].
Defined.

Lemma do_embedding_no_processes_witness :
  outcome (EmbeddingModels.do_embedding Examples.h5_joined
             (EmbeddingModels.MkMPEmbedder "sqlite:///cord19.db" "SBioBERT" [11; 12]%Z
                (EmbeddingModels.MkPath ["embeddings"] "sbiobert" ".h5")
                16 1000 0 None true None "SBioBERT" None))
  = Raise (ValueError "number sections must be larger than 0.").
Proof.
  rewrite do_embedding_no_processes; [reflexivity|simpl; lia].
Defined.

(** ** What a worker never does *)

Section WorkerInvariants.
Import EmbeddingModels.
Context {E P Connection : Type}.
Context (retrieve : list Z → Connection → list Sentence) (create_engine : string → Connection).
Context (libraries : Libraries) (path_exists : Path → bool).
Context (loaded : Model → EmbeddingModel E P).





End WorkerInvariants.

(** ** Sentence BioBERT and batches of one sentence *)

Section SBioBERTFacts.
Import EmbeddingModels.
Context {E P Connection : Type}.
Context (retrieve : list Z → Connection → list Sentence).
Context (tokenizer : list string → P) (sentence_embeddings : P → ndarray E).

Lemma SBioBERT_batch_shape (batch : list Sentence) :
  pools_rows tokenizer sentence_embeddings →
  shape (embed_batch (SBioBERT_model tokenizer sentence_embeddings) batch)
  = if decide (length batch = 1) then [768] else [length batch; 768].
Proof.
  intros Hrows. unfold embed_batch. cbn [embed_many preprocess_many SBioBERT_model].
  unfold SBioBERT_embed, squeeze. cbn [shape]. rewrite Hrows, length_fmap.
  rewrite filter_cons. case_decide as H1; case_decide as H2; try lia.
  - rewrite filter_cons. rewrite decide_True by lia. done.
  - rewrite filter_cons. rewrite decide_True by lia. done.
Qed.

Lemma consecutive_batches_lookup {A} (b : nat) (l : list A) (i : nat) batch :
  consecutive_batches b l !! i = Some batch →
  length batch = b `min` (length l - i * b)
  ∧ i < length l `div` b + (if decide (length l `mod` b = 0) then 0 else 1).
Proof.
  intros Hi. pose proof (consecutive_batches_lengths b l) as Hlen.
  apply (f_equal (λ ls, ls !! i)) in Hlen. rewrite !list_lookup_fmap, Hi in Hlen.
  simpl in Hlen. symmetry in Hlen. apply fmap_Some in Hlen as (j & Hj & ->).
  apply lookup_seq in Hj as [-> Hlt]. done.
Qed.

Lemma consecutive_batches_length {A} (b : nat) (l : list A) :
  length (consecutive_batches b l)
  = length l `div` b + (if decide (length l `mod` b = 0) then 0 else 1).
Proof.
  pose proof (consecutive_batches_lengths b l) as Hlen.
  apply (f_equal length) in Hlen. by rewrite !length_fmap, length_seq in Hlen.
Qed.

Lemma concatenate_flat (arrays : list (ndarray E)) (d : nat) :
  arrays ≠ [] →
  Forall (λ a, shape a = [d]) arrays →
  concatenate arrays
  = Ok (NdArray (E:=E) [length arrays * d] (concat (data <$> arrays))).
Proof.
  intros Hne Hall. destruct arrays as [|a rest]; [done|].
  inversion Hall as [|? ? Ha Hrest]; subst.
  unfold concatenate. rewrite Ha.
  replace (forallb _ rest) with true.
  2:{ symmetry. apply forallb_forall. intros x Hx.
      rewrite Forall_forall in Hrest. apply list_elem_of_In, Hrest in Hx.
      apply bool_decide_eq_true. by rewrite Hx. }
  do 2 f_equal. f_equal.
  clear Hne. induction Hall as [|x xs Hx _ IH]; [done|].
  rewrite fmap_cons. simpl. rewrite Hx. simpl. rewrite IH. lia.
Qed.

Lemma concatenate_ragged (a x : ndarray E) (rest : list (ndarray E)) (k d d' : nat) :
  shape a = [k; d] → x ∈ rest → shape x = [d'] →
  concatenate (a :: rest)
  = Raise (ValueError "all the input array dimensions except for the concatenation axis must match exactly").
Proof.
  intros Ha Hx Hsx. unfold concatenate. rewrite Ha.
  replace (forallb _ rest) with false; [done|].
  symmetry. apply not_true_is_false. intros Hall.
  rewrite forallb_forall in Hall. apply list_elem_of_In, Hall in Hx.
  apply bool_decide_eq_true in Hx as [Hx _]. by rewrite Hsx in Hx.
Qed.

(** X11: [SBioBERT.embed_many] squeezes what the network returns, so a batch
    of one sentence comes back as a flat vector of 768 numbers.  With the
    network returning one row of 768 numbers per sentence, with a positive
    batch size and a store that returns n >= 1 sentences,
    [compute_database_embeddings] therefore has three behaviours: when no
    batch has exactly one sentence (batch size not 1 and n mod batch size not
    1) it returns an array of shape (n, 768); when every batch has one
    sentence (batch size 1, or n = 1) it returns a flat array of shape
    (n * 768,); and when only the last batch has one sentence it raises
    ValueError from [np.concatenate]. *)
Theorem SBioBERT_compute_shapes (connection : Connection) (indices : list Z)
    (batch_size : Z) :
  let model := SBioBERT_model tokenizer sentence_embeddings in
  let sentences := retrieve indices connection in
  let n := length sentences in
  let computed := compute_database_embeddings retrieve model connection indices batch_size in
  pools_rows tokenizer sentence_embeddings →
  (0 < batch_size)%Z →
  sentences ≠ [] →
  (batch_size ≠ 1%Z ∧ n `mod` Z.to_nat batch_size ≠ 1 →
     ∃ embeddings, computed = Ok (embeddings, sentence_id <$> sentences)
                   ∧ shape embeddings = [n; 768])
  ∧ (batch_size = 1%Z ∨ n = 1 →
     ∃ embeddings, computed = Ok (embeddings, sentence_id <$> sentences)
                   ∧ shape embeddings = [n * 768])
  ∧ (batch_size ≠ 1%Z ∧ n ≠ 1 ∧ n `mod` Z.to_nat batch_size = 1 →
     ∃ msg, computed = Raise (ValueError msg)).
Proof.
  intros model sentences n computed Hrows Hpos Hne.
  subst computed. unfold compute_database_embeddings. fold sentences.
  rewrite embedding_loop_spec by done.
  cbn [mbind result_bind].
  set (b := Z.to_nat batch_size).
  assert (0 < b) as Hb by lia.
  assert (0 < n) as Hn by (subst n; destruct sentences; [done|simpl; lia]).
  pose proof (Nat.div_mod_eq n b) as Hdm.
  pose proof (Nat.mod_upper_bound n b ltac:(lia)) as Hub.
  set (batches := consecutive_batches b sentences).
  assert (batches ≠ []) as Hbatches by (by apply consecutive_batches_nil).
  assert (∀ i batch, batches !! i = Some batch →
            length batch = b `min` (n - i * b)
            ∧ i < n `div` b + (if decide (n `mod` b = 0) then 0 else 1)) as Hlook
    by (intros i batch; apply consecutive_batches_lookup).
  split; [|split].
  - intros [Hone Hmod].
    assert (Forall (λ batch, length batch ≠ 1 ∧ batch ≠ []) batches) as Hlens.
    { apply Forall_lookup. intros i batch Hi. apply Hlook in Hi as [Hlen Hlt].
      assert (2 ≤ length batch); [|split; [lia|intros ->; simpl in *; lia]].
      rewrite Hlen. case_decide; nia. }
    rewrite (concatenate_rows _ 768).
    + eexists. split; [reflexivity|]. cbn [shape]. f_equal.
      rewrite <- list_fmap_compose.
      erewrite (list_fmap_ext _ length); [|intros i batch Hi].
      * rewrite sum_list_lengths. unfold batches. by rewrite consecutive_batches_concat.
      * unfold compose. rewrite SBioBERT_batch_shape by done.
        eapply Forall_lookup_1 in Hlens as [? _]; [|done]. by rewrite decide_False.
    + intros Hnil. by apply fmap_nil_inv in Hnil.
    + apply Forall_fmap. eapply Forall_impl; [exact Hlens|]. intros batch [Hlen _].
      exists (length batch). cbv beta.
      rewrite SBioBERT_batch_shape by done.
      by rewrite decide_False.
  - intros Hcase.
    assert (Forall (λ batch, length batch = 1) batches) as Hlens.
    { apply Forall_lookup. intros i batch Hi. apply Hlook in Hi as [Hlen Hlt].
      rewrite Hlen. destruct Hcase as [Hbs|Hn1].
      - assert (b = 1) as Hb1 by lia. rewrite Hb1 in *.
        rewrite Nat.div_1_r, Nat.mod_1_r in Hlt. simpl in Hlt. lia.
      - rewrite Hn1 in *. destruct (decide (b = 1)) as [->|Hb1].
        + simpl in Hlt. lia.
        + rewrite Nat.div_small, Nat.mod_small in Hlt by lia. simpl in Hlt.
          assert (i = 0) as -> by lia. rewrite Nat.mul_0_l. lia. }
    rewrite (concatenate_flat _ 768).
    + eexists. split; [reflexivity|]. cbn [shape]. do 2 f_equal.
      rewrite length_fmap. unfold n.
      rewrite <- (consecutive_batches_concat b sentences) by done. fold batches.
      rewrite <- sum_list_lengths. clear -Hlens.
      induction Hlens as [|x xs Hx _ IH]; [done|].
      rewrite fmap_cons. cbn [length sum_list_with]. rewrite Hx, <- IH. done.
    + intros Hnil. by apply fmap_nil_inv in Hnil.
    + apply Forall_fmap. eapply Forall_impl; [exact Hlens|]. intros batch Hlen. unfold compose.
      rewrite SBioBERT_batch_shape by done.
      by rewrite decide_True.
  - intros (Hone & Hn1 & Hmod).
    assert (2 ≤ b) as Hb2 by lia.
    assert (1 ≤ n `div` b) as Hq.
    { destruct (n `div` b) eqn:Hdiv; [|lia]. lia. }
    assert (length batches = S (n `div` b)) as Hcount.
    { unfold batches. rewrite consecutive_batches_length. fold n.
      rewrite decide_False by lia. lia. }
    destruct (lookup_lt_is_Some_2 batches 0) as [first Hfirst]; [lia|].
    destruct (lookup_lt_is_Some_2 batches (n `div` b)) as [last Hlast]; [lia|].
    destruct batches as [|first' rest] eqn:Hbs; [done|].
    simpl in Hfirst. injection Hfirst as ->.
    destruct (n `div` b) as [|q] eqn:Hdiv; [lia|]. simpl in Hlast.
    pose proof (Hlook 0 first eq_refl) as [Hlen0 _].
    pose proof (Hlook (S q) last Hlast) as [Hlenq _].
    rewrite fmap_cons.
    rewrite (concatenate_ragged _ (embed_batch model last) _ (length first) 768 768).
    + by eexists.
    + rewrite SBioBERT_batch_shape by done.
      rewrite decide_False; [done|]. rewrite Hlen0. lia.
    + apply list_elem_of_fmap. exists last. split; [done|].
      by eapply list_elem_of_lookup_2.
    + rewrite SBioBERT_batch_shape by done.
      rewrite decide_True; [done|]. rewrite Hlenq. nia.
Qed.
End SBioBERTFacts.

Lemma SBioBERT_compute_shapes_witness :
  let computed n batch_size :=
    EmbeddingModels.compute_database_embeddings Examples.table_lookup
      (EmbeddingModels.SBioBERT_model (fun texts => texts) Examples.length_pool)
      (Examples.numbered_table n) (Examples.ids_upto n) batch_size in
  (∃ embeddings, computed 4 2%Z = Ok (embeddings, Examples.ids_upto 4)
                 ∧ shape embeddings = [4; 768])
  ∧ (∃ embeddings, computed 3 1%Z = Ok (embeddings, Examples.ids_upto 3)
                   ∧ shape embeddings = [2304])
  ∧ (∃ msg, computed 3 2%Z = Raise (ValueError msg)).
Proof.
  cbv zeta. split; [|split].
  - refine (proj1 (SBioBERT_compute_shapes Examples.table_lookup (fun texts => texts)
              Examples.length_pool (Examples.numbered_table 4) (Examples.ids_upto 4) 2
              _ _ _) _);
      [by intros texts|lia|done|split; [lia|vm_compute; lia]].
  - refine (proj1 (proj2 (SBioBERT_compute_shapes Examples.table_lookup (fun texts => texts)
              Examples.length_pool (Examples.numbered_table 3) (Examples.ids_upto 3) 1
              _ _ _)) _);
      [by intros texts|lia|done|by left].
  - refine (proj2 (proj2 (SBioBERT_compute_shapes Examples.table_lookup (fun texts => texts)
              Examples.length_pool (Examples.numbered_table 3) (Examples.ids_upto 3) 2
              _ _ _)) _);
      [by intros texts|lia|done|split; [lia|split; [vm_compute; lia|reflexivity]]].
Defined.

(** ** What a finished worker has done *)

Section WorkerSplitFacts.
Import EmbeddingModels.



End WorkerSplitFacts.

Section WorkerSuccess.
Import EmbeddingModels.
Context {E P Connection : Type}.
Context (retrieve : list Z → Connection → list Sentence) (create_engine : string → Connection).
Context (libraries : Libraries) (path_exists : Path → bool).
Context (loaded : Model → EmbeddingModel E P).





End WorkerSuccess.


(** ** What a worker does not do *)

Section WorkerGuards.
Import EmbeddingModels.
Context {E P Connection : Type}.
Context (retrieve : list Z → Connection → list Sentence) (create_engine : string → Connection).
Context (libraries : Libraries) (path_exists : Path → bool).
Context (loaded : Model → EmbeddingModel E P).

(** X13: a worker creates or writes a dataset only after its three checks:
    whenever a run touches a file at all, the chunk was not empty, the model
    could be loaded, and the temporary file did not exist.  In particular an
    existing temporary file is never written to. *)
Theorem run_embedding_worker_guards (kwargs : WorkerKwargs) :
  let run := run_embedding_worker retrieve create_engine libraries path_exists loaded kwargs in
  Exists (λ ev, touches_file ev = true) (trace run) →
  w_indices kwargs ≠ []
  ∧ (∃ model,
       get_embedding_model libraries (w_model_name_or_class kwargs) (w_checkpoint_path kwargs)
         (Some (if w_gpu kwargs is None then "cpu" else "cuda")) = Ok model)
  ∧ path_exists (w_temp_h5_path kwargs) = false.
Proof.
  intros run. subst run. unfold run_embedding_worker.
  destruct (first_index (w_indices kwargs)) as [first|e] eqn:Hfirst.
  2:{ rewrite (eff_bind_raise (lift (Raise e)) _ e) by done.
      intros Hex. by apply Exists_nil in Hex. }
  rewrite (eff_bind_ok (lift (Ok first)) _ first) by done.
  assert (w_indices kwargs ≠ []) as Hne.
  { intros Hnil. rewrite Hnil in Hfirst. done. }
  set (gpu_step := match w_gpu kwargs with Some gpu => emit _ | None => _ end).
  assert (outcome gpu_step = Ok tt
          ∧ ¬ Exists (λ ev, touches_file ev = true) (trace gpu_step)) as [Hgpu Hquiet].
  { subst gpu_step. destruct (w_gpu kwargs); (split; [done|]); simpl.
    - intros Hex. apply Exists_cons in Hex as [Hev|Hex]; [done|by apply Exists_nil in Hex].
    - intros Hex. by apply Exists_nil in Hex. }
  rewrite (eff_bind_ok gpu_step _ tt) by done.
  destruct (get_embedding_model _ _ _ _) as [model|e] eqn:Hmodel.
  2:{ rewrite (eff_bind_raise (lift (Raise e)) _ e) by done. cbn [trace lift].
      rewrite app_nil_l, app_nil_r. done. }
  rewrite (eff_bind_ok (lift (Ok model)) _ model) by done. cbv zeta.
  destruct (path_exists (w_temp_h5_path kwargs)) eqn:Hexists.
  - cbn [trace lift raise]. rewrite app_nil_l, app_nil_r. done.
  - intros _. split; [done|]. split; [by exists model|done].
Qed.

End WorkerGuards.

Lemma run_embedding_worker_guards_witness :
  EmbeddingModels.w_indices Examples.chunk_kwargs ≠ []
  ∧ Examples.no_paths (EmbeddingModels.w_temp_h5_path Examples.chunk_kwargs) = false.
Proof.
  destruct (run_embedding_worker_guards Examples.table_lookup Examples.numbered_store
              Examples.no_files Examples.no_paths Examples.loaded_length_model
              Examples.chunk_kwargs) as (Hne & _ & Hfree).
  - apply Exists_cons. left. reflexivity.
  - by split.
Defined.

(** ** From the embedder to the files of its workers *)

Section EndToEnd.
Import EmbeddingModels.
Context {E P Connection : Type}.
Context (retrieve : list Z → Connection → list Sentence) (create_engine : string → Connection).
Context (libraries : Libraries) (path_exists : Path → bool).
Context (loaded : Model → EmbeddingModel E P).
Context (H5_concatenate : Path → string → list Path → bool → Z → result unit).


Lemma started_workers_joins (names : list string) :
  started_workers (ProcessJoin <$> names) = [].
Proof. by induction names. Qed.



End EndToEnd.


(** ** Clicks the server does not answer with a table *)

Section ClickFailures.
Import MiningWidget.
Context (in_ipython : bool).
Context (server : string → pyobj → Response) (read_csv : string → result DataFrame).

(** Reading an answer prints nothing when it fails. *)
Lemma read_response_raise (response : Response) (e : exn) :
  outcome (read_response read_csv response) = Raise e →
  trace (read_response read_csv response) = [].
Proof.
  unfold read_response, mbind, eff_bind, lift, emit. simpl.
  destruct (header (headers response) "Content-Type") as [content_type|]; simpl; [|done].
  case_decide; simpl; [|done].
  by destruct (read_csv (text response)).
Qed.

(** X15: a click on "Mine This Text!" that the server answers with a content
    type other than [text/csv] drops whatever table the widget held: the
    notice, the headers and the body are printed, [None] is displayed, the
    widget is left without a table, and [get_extracted_table] then returns
    an empty table. *)
Theorem mine_text_clicked_not_csv (self : Widget) (heap : gmap loc DataFrame)
    (content_type : string) :
  let url := mining_server_url self +:+ "/text" in
  let json := PyDict [("text", PyStr (input_text self)); ("debug", PyBool false)] in
  let response := server url json in
  header (headers response) "Content-Type" = Ok content_type →
  content_type ≠ "text/csv" →
  ∃ self' results_table heap',
    mine_text_clicked in_ipython server read_csv self heap
    = MkEff [ClearOutput; HttpPost url json;
             Print "Response content type is not text/csv.";
             PrintHeaders (headers response); Print (text response); Display None]
        (Ok (self', heap))
    ∧ table_extractions self' = None
    ∧ get_extracted_table self' heap = Some (results_table, heap')
    ∧ heap' !! results_table = Some empty_DataFrame.
Proof.
  intros url json response Hheader Hother.
  rewrite (mine_text_clicked_run in_ipython server read_csv). cbv zeta.
  fold url json response.
  unfold read_response. rewrite Hheader.
  unfold mbind, eff_bind, lift, emit, mret, eff_ret. simpl.
  rewrite decide_False by done. simpl.
  eexists _, _, _. split; [reflexivity|]. split; [reflexivity|].
  unfold get_extracted_table. simpl. split; [reflexivity|].
  unfold alloc. simpl. apply lookup_insert_eq.
Qed.

(** X16: when the answer cannot be read (it has no [Content-Type] header,
    which is a [KeyError] of the lower-cased name, or it is [text/csv] that
    [pd.read_csv] refuses), the click on "Mine This Text!" stops right
    after the request: nothing is printed by the pipeline, no table is
    displayed, and the widget keeps the table it had.  What becomes of the
    error is up to the output widget: under IPython its traceback is shown
    in the output area and the click returns; elsewhere the click raises
    it. *)
Theorem mine_text_clicked_unreadable (self : Widget) (heap : gmap loc DataFrame) (e : exn) :
  let url := mining_server_url self +:+ "/text" in
  let json := PyDict [("text", PyStr (input_text self)); ("debug", PyBool false)] in
  let response := server url json in
  (header (headers response) "Content-Type" = Raise e
   ∨ header (headers response) "Content-Type" = Ok "text/csv"
     ∧ read_csv (text response) = Raise e) →
  mine_text_clicked in_ipython server read_csv self heap
  = (if in_ipython
     then MkEff [ClearOutput; HttpPost url json; ShowTraceback e] (Ok (self, heap))
     else MkEff [ClearOutput; HttpPost url json] (Raise e))
  ∧ (header (headers response) "Content-Type" = Raise e → e = KeyError "content-type").
Proof.
  intros url json response Hunreadable.
  assert (outcome (read_response read_csv response) = Raise e) as Hraise.
  { unfold read_response.
    destruct Hunreadable as [Hheader|[Hheader Hcsv]]; rewrite Hheader; [done|].
    unfold mbind, eff_bind, lift. simpl. by rewrite Hcsv. }
  split.
  - rewrite (mine_text_clicked_run in_ipython server read_csv). cbv zeta.
    fold url json response.
    by rewrite (read_response_raise _ e Hraise), Hraise.
  - unfold header. destruct (list_find _ _) as [[? [? ?]]|]; [done|].
    by intros [= <-].
Qed.

End ClickFailures.

Lemma mine_text_clicked_not_csv_witness :
  ∃ self',
    outcome (MiningWidget.mine_text_clicked true Examples.json_server Examples.plain_read_csv
               (MiningWidget.MkWidget "http://test" (Some 1%positive) "HELLO")
               {[ 1%positive := Examples.extractions_table ]})
    = Ok (self', {[ 1%positive := Examples.extractions_table ]})
    ∧ MiningWidget.table_extractions self' = None.
Proof.
  destruct (mine_text_clicked_not_csv true Examples.json_server Examples.plain_read_csv
              (MiningWidget.MkWidget "http://test" (Some 1%positive) "HELLO")
              {[ 1%positive := Examples.extractions_table ]} "application/json")
    as (self' & results_table & heap' & Hclick & Hnone & _).
  - reflexivity.
  - discriminate.
  - exists self'. split; [by rewrite Hclick|done].
Defined.

(** An answer without headers, under IPython and outside it. *)
Lemma mine_text_clicked_unreadable_witness :
  MiningWidget.mine_text_clicked true Examples.bare_server Examples.plain_read_csv
    (MiningWidget.MiningWidget_init "http://test" "HELLO") ∅
  = MkEff [MiningWidget.ClearOutput;
           MiningWidget.HttpPost "http://test/text"
             (MiningWidget.PyDict [("text", MiningWidget.PyStr "HELLO");
                                   ("debug", MiningWidget.PyBool false)]);
           MiningWidget.ShowTraceback (KeyError "content-type")]
      (Ok (MiningWidget.MiningWidget_init "http://test" "HELLO", ∅))
  ∧ MiningWidget.mine_text_clicked false Examples.bare_server Examples.plain_read_csv
      (MiningWidget.MiningWidget_init "http://test" "HELLO") ∅
    = MkEff [MiningWidget.ClearOutput;
             MiningWidget.HttpPost "http://test/text"
               (MiningWidget.PyDict [("text", MiningWidget.PyStr "HELLO");
                                     ("debug", MiningWidget.PyBool false)])]
        (Raise (KeyError "content-type")).
Proof.
  split.
  - apply (mine_text_clicked_unreadable true Examples.bare_server Examples.plain_read_csv
             (MiningWidget.MiningWidget_init "http://test" "HELLO") ∅ (KeyError "content-type")).
    by left.
  - apply (mine_text_clicked_unreadable false Examples.bare_server Examples.plain_read_csv
             (MiningWidget.MiningWidget_init "http://test" "HELLO") ∅ (KeyError "content-type")).
    by left.
Defined.

(** ** Mining the saved articles *)

Section ArticleClickFacts.
Import MiningWidget.
Context (in_ipython : bool).
Context (server : string → pyobj → Response) (read_csv : string → result DataFrame).
Context (elapsed : string → string).

Lemma http_requests_app (events events' : list event) :
  http_requests (events ++ events') = http_requests events ++ http_requests events'.
Proof. apply omap_app. Qed.

Lemma plain_events_app (events events' : list articles_event) :
  plain_events (events ++ events') = plain_events events ++ plain_events events'.
Proof. apply omap_app. Qed.

Lemma plain_events_plainly {A} (m : Eff event A) :
  plain_events (trace (plainly m)) = trace m.
Proof.
  unfold plainly, plain_events. cbn [trace].
  induction (trace m) as [|ev events IH]; [done|].
  rewrite fmap_cons. cbn [omap list_omap]. by f_equal.
Qed.

(** A traceback shown in the output area is no request. *)
Lemma with_output_requests {A} (body : Eff articles_event A) :
  http_requests (plain_events
    (trace (with_output (λ e, Plain (ShowTraceback e)) in_ipython body)))
  = http_requests (plain_events (trace body)).
Proof.
  unfold with_output. destruct (outcome body) as [a|e]; [done|].
  destruct in_ipython; [|done]. cbn [trace].
  rewrite plain_events_app, http_requests_app. apply app_nil_r.
Qed.

Lemma trace_bind_mret {Ev A B} (m : Eff Ev A) (f : A → B) :
  trace (m ≫= λ a, mret (f a)) = trace m.
Proof.
  unfold mbind, eff_bind. destruct (outcome m); [|done]. apply app_nil_r.
Qed.

(** X17: a click on "Mine Selected Articles!" clears the output first.
    Without an article saver it then only prints its notice: no request is
    sent, nothing is displayed, and the widget and its table are as before.
    With an article saver it sends exactly one request, whatever the server
    answers: a POST to [/database] whose identifiers are the pairs
    (article id, paragraph id) of the chosen texts, in the order of the
    table, and with no [debug] field. *)
Theorem mine_articles_clicked_requests (article_saver : option (list ChosenText))
    (self : Widget) (heap : gmap loc DataFrame) :
  let run :=
    mine_articles_clicked in_ipython server read_csv elapsed article_saver self heap in
  head (trace run) = Some (Plain ClearOutput)
  ∧ match article_saver with
    | None =>
      run = MkEff [Plain ClearOutput;
                   Plain (Print "No article saver was provided. Nothing to mine.")]
              (Ok (self, heap))
    | Some chosen =>
      http_requests (plain_events (trace run))
      = [(mining_server_url self +:+ "/database",
          PyDict [("identifiers",
                   PyList ((λ row, PyTuple [article_id row; paragraph_id row]) <$> chosen))])]
    end.
Proof.
  intros run. subst run. split; [by destruct article_saver|].
  destruct article_saver as [chosen|]; [|reflexivity].
  unfold mine_articles_clicked. cbv zeta.
  set (information := (λ row, PyTuple [article_id row; paragraph_id row]) <$> chosen).
  set (pipeline := textmining_pipeline server read_csv (mining_server_url self)
                     (PyList information) false).
  assert (http_requests (trace pipeline)
          = [(mining_server_url self +:+ "/database",
              PyDict [("identifiers", PyList information)])]) as Hposted.
  { subst pipeline. unfold textmining_pipeline.
    rewrite (textmining_pipeline_posted server read_csv). cbn [trace].
    change (http_requests (?ev :: ?events)) with (http_requests [ev] ++ http_requests events).
    by rewrite (read_response_no_request read_csv). }
  rewrite (eff_bind_ok (emit _) _ tt) by done. cbn [trace emit].
  rewrite trace_bind_mret, plain_events_app, http_requests_app, with_output_requests.
  rewrite (eff_bind_ok (emit _) _ tt) by done.
  rewrite (eff_bind_ok (emit _) _ tt) by done.
  rewrite (eff_bind_ok (emit _) _ tt) by done.
  cbn [trace emit].
  match goal with |- context [trace (plainly pipeline ≫= ?f)] =>
    set (rest := trace (plainly pipeline ≫= f)) end.
  assert (http_requests (plain_events rest)
          = [(mining_server_url self +:+ "/database",
              PyDict [("identifiers", PyList information)])]) as Hrest.
  { subst rest. destruct (outcome pipeline) as [table|e] eqn:Hend.
    - rewrite (eff_bind_ok (plainly pipeline) _ table) by exact Hend. cbn [trace].
      rewrite plain_events_app, http_requests_app, plain_events_plainly, Hposted.
      reflexivity.
    - rewrite (eff_bind_raise (plainly pipeline) _ e) by exact Hend. cbn [trace].
      by rewrite plain_events_plainly, Hposted. }
  rewrite !plain_events_app, !http_requests_app, Hrest. reflexivity.
Qed.

End ArticleClickFacts.

(** Two chosen paragraphs of article 7. *)
Lemma mine_articles_clicked_requests_witness :
  MiningWidget.http_requests
    (MiningWidget.plain_events
       (trace (MiningWidget.mine_articles_clicked true Examples.csv_server
                 Examples.plain_read_csv Examples.stopwatch (Some Examples.chosen_texts)
                 (MiningWidget.MiningWidget_init "http://test" "HELLO") ∅)))
  = [("http://test/database",
      MiningWidget.PyDict
        [("identifiers",
          MiningWidget.PyList
            [MiningWidget.PyTuple [MiningWidget.PyInt 7; MiningWidget.PyInt 0];
             MiningWidget.PyTuple [MiningWidget.PyInt 7; MiningWidget.PyInt 3]])])].
Proof.
  exact (proj2 (mine_articles_clicked_requests true Examples.csv_server Examples.plain_read_csv
                  Examples.stopwatch (Some Examples.chosen_texts)
                  (MiningWidget.MiningWidget_init "http://test" "HELLO") ∅)).
Defined.

(** ** What the workers are started with *)

Section WorkerArguments.
Import EmbeddingModels.
Context (H5_concatenate : Path → string → list Path → bool → Z → result unit).

Lemma started_workers_app (events events' : list event) :
  started_workers (events ++ events') = started_workers events ++ started_workers events'.
Proof. apply omap_app. Qed.

Lemma start_workers_kwargs (self : MPEmbedder) (output_folder : list string)
    (process_ix : nat) (splits : list (list Z)) :
  let workers := started_workers (trace (start_workers self output_folder process_ix splits)) in
  Forall (λ kwargs,
            w_database_url kwargs = database_url self
            ∧ w_model_name_or_class kwargs = model_name_or_class self
            ∧ w_batch_size kwargs = batch_size_inference self
            ∧ w_checkpoint_path kwargs = checkpoint_path self
            ∧ w_h5_dataset_name kwargs = h5_dataset_name self) workers
  ∧ ∀ i kwargs, workers !! i = Some kwargs →
      gpu_for (gpus self) (process_ix + i) = Ok (w_gpu kwargs).
Proof.
  revert process_ix. induction splits as [|split splits IH]; intros process_ix; cbv zeta.
  - split; [constructor|]. intros i kwargs Hi. done.
  - cbn [start_workers].
    destruct (gpu_for (gpus self) process_ix) as [gpu|e] eqn:Hgpu.
    2:{ rewrite (eff_bind_raise (lift (Raise e)) _ e) by done.
        split; [constructor|]. intros i kwargs Hi. done. }
    rewrite (eff_bind_ok (lift (Ok gpu)) _ gpu) by done.
    rewrite (eff_bind_ok (emit _) _ tt) by done.
    destruct (IH (S process_ix)) as [IH1 IH2].
    set (rest := start_workers self output_folder (S process_ix) splits) in *.
    assert (∀ f : list string * list Path → Eff event (list string * list Path),
              (∀ started, trace (f started) = []) →
              trace (rest ≫= f) = trace rest) as Hret.
    { intros f Hf. unfold mbind, eff_bind. destruct (outcome rest); [|done].
      simpl. by rewrite Hf, app_nil_r. }
    cbn [trace lift emit]. rewrite Hret by done.
    rewrite app_nil_l, started_workers_app.
    change (started_workers [ProcessStart ?name ?kwargs]) with [kwargs].
    split.
    + constructor; [done|exact IH1].
    + intros [|i] kwargs Hi.
      * simpl in Hi. injection Hi as <-. by rewrite Nat.add_0_r.
      * simpl in Hi. replace (process_ix + S i) with (S process_ix + i) by lia.
        by apply IH2.
Qed.

(** X18: every worker [do_embedding] starts is handed the embedder's own
    database URL, model name, checkpoint path and dataset name, and
    [batch_size_inference] as its batch size; and the worker started for
    chunk [i] is handed [gpus[i]], or no GPU when the embedder has no GPU
    list.  This holds however the run ends. *)
Theorem do_embedding_worker_arguments (self : MPEmbedder) :
  let workers := started_workers (trace (do_embedding H5_concatenate self)) in
  Forall (λ kwargs,
            w_database_url kwargs = database_url self
            ∧ w_model_name_or_class kwargs = model_name_or_class self
            ∧ w_batch_size kwargs = batch_size_inference self
            ∧ w_checkpoint_path kwargs = checkpoint_path self
            ∧ w_h5_dataset_name kwargs = h5_dataset_name self) workers
  ∧ ∀ i kwargs, workers !! i = Some kwargs →
      match gpus self with
      | None => w_gpu kwargs = None
      | Some g => g !! i = Some (w_gpu kwargs)
      end.
Proof.
  intros workers.
  set (output_folder := default (parent (h5_path_output self)) (temp_folder self)).
  assert (∃ splits, workers = started_workers (trace (start_workers self output_folder 0 splits)))
    as [splits ->].
  { subst workers. unfold do_embedding. fold output_folder.
    rewrite (eff_bind_ok (emit _) _ tt) by done.
    rewrite (eff_bind_ok (emit _) _ tt) by done.
    destruct (embedding_splits (indices self) (n_processes self)) as [splits|e].
    2:{ rewrite (eff_bind_raise (lift (Raise e)) _ e) by done. by exists []. }
    rewrite (eff_bind_ok (lift (Ok splits)) _ splits) by done.
    exists splits. cbn [trace emit lift]. rewrite !started_workers_app.
    change (started_workers [Mkdir ?folder]) with (@nil WorkerKwargs).
    rewrite !app_nil_l.
    set (start := start_workers self output_folder 0 splits).
    destruct (outcome start) as [started|e] eqn:Hstart.
    - rewrite (eff_bind_ok start _ started) by done. cbn [trace].
      rewrite started_workers_app. rewrite join_all_spec.
      rewrite (eff_bind_ok (MkEff _ _) _ tt) by done. cbn [trace emit].
      rewrite started_workers_app, started_workers_joins.
      by rewrite app_nil_r.
    - by rewrite (eff_bind_raise start _ e) by done. }
  destruct (start_workers_kwargs self output_folder 0 splits) as [Hshared Hgpus].
  split; [exact Hshared|].
  intros i kwargs Hi. apply Hgpus in Hi. simpl in Hi. unfold gpu_for in Hi.
  destruct (gpus self) as [g|]; [|by injection Hi].
  destruct (g !! i); [by injection Hi as ->|done].
Qed.

End WorkerArguments.
